(** * LineClient: dispatch, credentials, pagination and error normalisation

    A shallow embedding of [packages/messaging-api-line/src/LineClient.ts].

    - JavaScript values that the client only stores, forwards or inspects
      by property are [Value]s; buffers are lists of bytes.
    - A promise is a computation over an explicit [State]: the instance
      ([this]), the way the coming HTTP calls settle ([network]) and the
      requests issued so far ([sent]).  A computation ends in [Return],
      in [Throw] (a rejected promise or a thrown exception) or stays
      [Pending] when the network never answers.
    - Headers and other JS objects used as maps are [gmap string _]. *)

From Stdlib Require Import ZArith.
From stdpp Require Import base strings gmap list pretty.

Set Warnings "-register-all".
Local Open Scope Z_scope.

(** ** JavaScript values *)

Inductive Value : Type :=
| VUndefined
| VNull
| VBool (b : bool)
| VNum (n : Z)
| VStr (s : string)
| VArr (xs : list Value)
| VObj (fields : list (string * Value)).

Abbreviation Buffer := (list Byte.byte).

(** What travels as the body of a request or of a response: a JSON
    document or raw bytes. *)
Inductive Payload : Type :=
| JsonData (v : Value)
| BinaryData (b : Buffer).

(** [if (v)], [v && ...], [while (v)]. *)
Definition truthy (v : Value) : bool :=
  match v with
  | VUndefined | VNull => false
  | VBool b => b
  | VNum n => negb (n =? 0)
  | VStr s => negb (String.eqb s EmptyString)
  | VArr _ | VObj _ => true
  end.

Fixpoint assoc (k : string) (fields : list (string * Value)) : Value :=
  match fields with
  | [] => VUndefined
  | (k', v) :: rest => if String.eqb k k' then v else assoc k rest
  end.

(** [xs.concat(v)]: an array argument is spread, anything else is
    appended as one element. *)
Definition array_concat (xs : list Value) (v : Value) : list Value :=
  match v with
  | VArr ys => xs ++ ys
  | _ => xs ++ [v]
  end.

(** ** Errors *)

Record Detail : Type := mkDetail {
  property : string;
  detail_message : string
}.

(** [err.response.data] as [handleError] declares it; [details] may be
    missing. *)
Record ErrorBody : Type := mkErrorBody {
  message : string;
  details : option (list Detail)
}.

(** [err.response]: the status and the body, [None] for a body that is
    missing or falsy. *)
Record ErrorResponse : Type := mkErrorResponse {
  status : Z;
  data : option ErrorBody
}.

Inductive JsError : Type :=
| RequestError (msg : string) (response : option ErrorResponse)
| AxiosError (msg : string) (err : JsError)
| InvariantViolation (msg : string)
| TypeError (msg : string).

Definition err_message (e : JsError) : string :=
  match e with
  | RequestError m _ | AxiosError m _ | InvariantViolation m | TypeError m => m
  end.

(** Modelled from the spec: the class [AxiosError] of the package
    [axios-error] is not among the sources.  The specification has the
    raised error carry the formatted message and the original failure,
    and has [getUserProfile], which reads [response.status] on the error
    [handleError] raised, answer [null] to a 404: the [response] of an
    [AxiosError] is that of the failure it carries. *)
Fixpoint err_response (e : JsError) : option ErrorResponse :=
  match e with
  | RequestError _ r => r
  | AxiosError _ err => err_response err
  | InvariantViolation _ | TypeError _ => None
  end.

(** How a call ends. *)
Inductive Completion (A : Type) : Type :=
| Return (a : A)
| Throw (e : JsError)
| Pending.
Arguments Return {A} a.
Arguments Throw {A} e.
Arguments Pending {A}.

(** The line feed of the template literal. *)
Definition LF : string := String (Ascii.ascii_of_nat 10) EmptyString.

(** [msg += `\n- ${detail.property}: ${detail.message}`] *)
Definition append_detail (msg : string) (detail : Detail) : string :=
  msg +:+ LF +:+ "- " +:+ property detail +:+ ": " +:+ detail_message detail.

Definition handleError {A : Type} (err : JsError) : Completion A :=
  match err_response err with
  | Some {| data := Some {| message := message; details := details |} |} =>
      let msg := "LINE API - " +:+ message in
      let msg :=
        match details with
        | Some ds =>
            if (0 <? Z.of_nat (length ds)) then fold_left append_detail ds msg
            else msg
        | None => msg
        end in
      Throw (AxiosError msg err)
  | _ => Throw (AxiosError (err_message err) err)
  end.

(** The options bag of a call, [{ accessToken?: string }]. *)
Record CallOptions : Type := mkCallOptions { accessToken : option string }.

(** What [imageType] of the package [image-type] reports. *)
Record ImageType : Type := mkImageType { ext : string; mime : string }.

(** ** The shape of a normalised message *)

(** ["- <property>: <message>"] *)
Definition detail_line (d : Detail) : string :=
  "- " +:+ property d +:+ ": " +:+ detail_message d.

(** ** A platform for the examples

    Stand-ins for what the client takes from its platform, used where a
    statement is tried on concrete input. *)

(** Detection by the first bytes: PNG, JPEG and GIF. *)
Definition sniff (image : Buffer) : option ImageType :=
  match image with
  | Byte.x89 :: Byte.x50 :: Byte.x4e :: Byte.x47 :: _ =>
      Some {| ext := "png"; mime := "image/png" |}
  | Byte.xff :: Byte.xd8 :: Byte.xff :: _ =>
      Some {| ext := "jpg"; mime := "image/jpeg" |}
  | Byte.x47 :: Byte.x49 :: Byte.x46 :: _ =>
      Some {| ext := "gif"; mime := "image/gif" |}
  | _ => None
  end.

(** Bytes are taken as they are, JSON is refused. *)
Definition bytesOnly (p : Payload) : JsError + Buffer :=
  match p with
  | BinaryData b => inr b
  | JsonData _ => inl (TypeError "The first argument must be a Buffer")
  end.

Definition cannotReadProperty (k : string) (v : Value) : string :=
  "Cannot read property '" +:+ k +:+ "' of "
  +:+ match v with
      | VNull => "null"
      | _ => "undefined"
      end.

(** Decimal digits, which is what the engine prints for the integers
    below 2^53. *)
Definition decimal (n : Z) : string := pretty n.

(** ** The instance, the network and promises *)

Section Client.

(** JavaScript function values; [onRequest] is the observer imported
    from [messaging-api-common]. *)
Variable Fn : Type.
Variable onRequest : Fn.

(** [imageType] of the package [image-type]: the type detected from the
    first bytes of a buffer, [None] when it detects none. *)
Variable imageType : Buffer -> option ImageType.

(** [Buffer.from] of the platform, which throws on what it cannot
    convert. *)
Variable Buffer_from : Payload -> JsError + Buffer.

(** The engine's message for reading or destructuring a property of
    [undefined] or [null]. *)
Variable cannotRead : string -> Value -> string.

(** [Number::toString] of the engine at an integer: its digits for the
    integers a double holds exactly up to 2^53, rounded digits beyond,
    the exponent form from 1e21 on. *)
Variable numberToString : Z -> string.

(** The string a template literal [`${v}`] inserts.  The properties of
    an object are taken as data: an object with a property of its own
    named [toString] or [valueOf], which the engine would try to call,
    is outside the model. *)
Fixpoint toString (v : Value) : string :=
  match v with
  | VUndefined => "undefined"
  | VNull => "null"
  | VBool true => "true"
  | VBool false => "false"
  | VNum n => numberToString n
  | VStr s => s
  | VArr xs =>
      let element x :=
        match x with
        | VUndefined | VNull => EmptyString
        | _ => toString x
        end in
      (fix join (l : list Value) : string :=
         match l with
         | [] => EmptyString
         | [x] => element x
         | x :: rest => element x +:+ "," +:+ join rest
         end) xs
  | VObj _ => "[object Object]"
  end.


Record ClientConfig : Type := mkClientConfig {
  config_accessToken : string;
  config_channelSecret : string;
  config_origin : option string;
  config_onRequest : option Fn
}.

(** What [axios.create] keeps: the base URL and the headers of every
    request of the instance. *)
Record AxiosInstance : Type := mkAxiosInstance {
  baseURL : string;
  default_headers : gmap string string
}.

Record LineClient : Type := mkLineClient {
  _channelSecret : option string;
  _onRequest : Fn;
  _axios : AxiosInstance;
  _accessToken : string
}.

(** The third argument of [get]/[post]/[put]/[delete] where the client
    gives one. *)
Record AxiosRequestConfig : Type := mkAxiosRequestConfig {
  responseType : option string;
  headers : gmap string string
}.

(** A request as it leaves the instance. *)
Record Request : Type := mkRequest {
  req_method : string;
  req_baseURL : string;
  req_url : string;
  req_headers : gmap string string;
  req_responseType : option string;
  req_body : Payload
}.

Record AxiosResponse : Type := mkAxiosResponse {
  res_status : Z;
  res_data : Payload
}.

(** How one HTTP call settles: axios fulfils with the response of a 2xx
    status and rejects otherwise, with the response when there was one. *)
Inductive Settled : Type :=
| Fulfilled (res : AxiosResponse)
| Rejected (msg : string) (response : option ErrorResponse).

Record State : Type := mkState {
  this : LineClient;
  network : list Settled;
  sent : list (Fn * Request)
}.

Definition Promise (A : Type) : Type := State -> Completion A * State.

Definition throw {A : Type} (e : JsError) : Promise A := fun st => (Throw e, st).

(** [p.then(onFulfilled, onRejected)] with handlers that do no I/O. *)
Definition then_ {A B : Type} (p : Promise A)
    (onFulfilled : A -> Completion B) (onRejected : JsError -> Completion B)
  : Promise B :=
  fun st =>
    match p st with
    | (Return a, st') => (onFulfilled a, st')
    | (Throw e, st') => (onRejected e, st')
    | (Pending, st') => (Pending, st')
    end.

(** [p.catch(onRejected)] *)
Definition catch {A : Type} (p : Promise A) (onRejected : JsError -> Completion A)
  : Promise A :=
  then_ p Return onRejected.

(** [constructor]: the two ways of giving the credentials. *)
Definition constructor (accessTokenOrConfig : string + ClientConfig)
    (channelSecret : option string) : LineClient :=
  let '(accessToken, secret, observer, origin) :=
    match accessTokenOrConfig with
    | inr config =>
        (config_accessToken config,
         Some (config_channelSecret config),
         default onRequest (config_onRequest config),
         config_origin config)
    | inl accessToken => (accessToken, channelSecret, onRequest, None)
    end in
  let origin :=
    match origin with
    | Some o => if String.eqb o EmptyString then "https://api.line.me" else o
    | None => "https://api.line.me"
    end in
  {| _channelSecret := secret;
     _onRequest := observer;
     _axios :=
       {| baseURL := origin +:+ "/";
          default_headers :=
            {[ "Authorization" := "Bearer " +:+ accessToken;
               "Content-Type" := "application/json" ]} |};
     _accessToken := accessToken |}.

(** [static connect]: [new LineClient(...)] under another name. *)
Definition connect (accessTokenOrConfig : string + ClientConfig)
    (channelSecret : option string) : LineClient :=
  constructor accessTokenOrConfig channelSecret.

(** [get axios()] and [get accessToken()]. *)
Definition get_axios (client : LineClient) : AxiosInstance := _axios client.

Definition get_accessToken (client : LineClient) : string := _accessToken client.

(** The request the instance makes of a call: the headers of the call's
    config win over those of the instance. *)
Definition outgoing (client : LineClient) (method url : string)
    (body : Payload) (config : option AxiosRequestConfig) : Request :=
  let instance := _axios client in
  {| req_method := method;
     req_baseURL := baseURL instance;
     req_url := url;
     req_headers :=
       match config with
       | Some c => headers c ∪ default_headers instance
       | None => default_headers instance
       end;
     req_responseType := config ≫= responseType;
     req_body := body |}.

Definition settle (s : Settled) : Completion AxiosResponse :=
  match s with
  | Fulfilled res => Return res
  | Rejected msg response => Throw (RequestError msg response)
  end.

(** One call of the axios instance.  The request interceptor hands the
    request to [this._onRequest] before it is sent, which [sent]
    records; then the call settles as the network decides, and stays
    pending when the network has nothing more to say. *)
Definition request (method url : string) (body : Payload)
    (config : option AxiosRequestConfig) : Promise AxiosResponse :=
  fun st =>
    let issued :=
      sent st ++ [(_onRequest (this st), outgoing (this st) method url body config)] in
    match network st with
    | [] => (Pending, {| this := this st; network := []; sent := issued |})
    | s :: rest => (settle s, {| this := this st; network := rest; sent := issued |})
    end.

Definition axios_get (url : string) (config : option AxiosRequestConfig) :=
  request "get" url (JsonData VUndefined) config.

Definition axios_delete (url : string) (config : option AxiosRequestConfig) :=
  request "delete" url (JsonData VUndefined) config.

Definition axios_post (url : string) (body : Payload)
    (config : option AxiosRequestConfig) :=
  request "post" url body config.

Definition axios_put (url : string) (body : Payload)
    (config : option AxiosRequestConfig) :=
  request "put" url body config.

(** ** The endpoints *)

(** [customAccessToken === undefined ? undefined
      : { headers: { Authorization: `Bearer ${customAccessToken}` } }],
    the config written out at every call site but three. *)
Definition authorizationConfig (customAccessToken : option string)
  : option AxiosRequestConfig :=
  match customAccessToken with
  | None => None
  | Some token =>
      Some {| responseType := None;
              headers := {[ "Authorization" := "Bearer " +:+ token ]} |}
  end.

(** [...(customAccessToken && { Authorization: `Bearer ${customAccessToken}` })]:
    spreading [undefined] or the empty string adds nothing. *)
Definition spreadAuthorization (customAccessToken : option string)
  : gmap string string :=
  match customAccessToken with
  | None => ∅
  | Some token =>
      if String.eqb token EmptyString then ∅
      else {[ "Authorization" := "Bearer " +:+ token ]}
  end.

(** [res => res.data] *)
Definition res_data_ (res : AxiosResponse) : Completion Payload :=
  Return (res_data res).

(** [p.k] for the property names the client reads ([richmenus], [apps],
    [memberIds], [next]), none of which is built in. *)
Definition get_property (k : string) (p : Payload) : Completion Value :=
  match p with
  | BinaryData _ => Return VUndefined
  | JsonData VUndefined => Throw (TypeError (cannotRead k VUndefined))
  | JsonData VNull => Throw (TypeError (cannotRead k VNull))
  | JsonData (VObj fields) => Return (assoc k fields)
  | JsonData _ => Return VUndefined
  end.

(** [res => res.data.k] *)
Definition res_data_property (k : string) (res : AxiosResponse)
  : Completion Payload :=
  match get_property k (res_data res) with
  | Return v => Return (JsonData v)
  | Throw e => Throw e
  | Pending => Pending
  end.

(** [res => Buffer.from(res.data)] *)
Definition res_data_buffer (res : AxiosResponse) : Completion Payload :=
  match Buffer_from (res_data res) with
  | inr b => Return (BinaryData b)
  | inl e => Throw e
  end.

(** The handler given to [.catch] by the five lookups that answer
    [null] for a missing resource. *)
Definition nullOn404 (err : JsError) : Completion Payload :=
  match err_response err with
  | Some response =>
      if status response =? 404 then Return (JsonData VNull)
      else handleError err
  | None => handleError err
  end.

Definition replyRawBody (body : Value) (options : CallOptions) : Promise Payload :=
  then_
    (axios_post "/v2/bot/message/reply" (JsonData body)
       (authorizationConfig (accessToken options)))
    res_data_ handleError.

Definition reply (replyToken : Value) (messages : list Value)
    (options : CallOptions) : Promise Payload :=
  replyRawBody
    (VObj [("replyToken", replyToken); ("messages", VArr messages)]) options.

Definition pushRawBody (body : Value) (options : CallOptions) : Promise Payload :=
  then_
    (axios_post "/v2/bot/message/push" (JsonData body)
       (authorizationConfig (accessToken options)))
    res_data_ handleError.

Definition push (to : Value) (messages : list Value)
    (options : CallOptions) : Promise Payload :=
  pushRawBody (VObj [("to", to); ("messages", VArr messages)]) options.

Definition multicastRawBody (body : Value) (options : CallOptions)
  : Promise Payload :=
  then_
    (axios_post "/v2/bot/message/multicast" (JsonData body)
       (authorizationConfig (accessToken options)))
    res_data_ handleError.

Definition multicast (to : Value) (messages : list Value)
    (options : CallOptions) : Promise Payload :=
  multicastRawBody (VObj [("to", to); ("messages", VArr messages)]) options.

(** [_send]: the mode tag is a string; the casts of [target] leave no
    trace at run time. *)
Definition _send (type : string) (target : Value) (messages : list Value)
    (options : CallOptions) : Promise Payload :=
  if String.eqb type "push" then push target messages options
  else if String.eqb type "multicast" then multicast target messages options
  else reply target messages options.

Definition retrieveMessageContent (messageId : string) (options : CallOptions)
  : Promise Payload :=
  then_
    (axios_get ("/v2/bot/message/" +:+ messageId +:+ "/content")
       match accessToken options with
       | None => None
       | Some token =>
           Some {| responseType := Some "arraybuffer";
                   headers := {[ "Authorization" := "Bearer " +:+ token ]} |}
       end)
    res_data_buffer handleError.

Definition getUserProfile (userId : string) (options : CallOptions)
  : Promise Payload :=
  catch
    (then_
       (axios_get ("/v2/bot/profile/" +:+ userId)
          (authorizationConfig (accessToken options)))
       res_data_ handleError)
    nullOn404.

Definition getGroupMemberProfile (groupId userId : string)
    (options : CallOptions) : Promise Payload :=
  then_
    (axios_get ("/v2/bot/group/" +:+ groupId +:+ "/member/" +:+ userId)
       (authorizationConfig (accessToken options)))
    res_data_ handleError.

Definition getRoomMemberProfile (roomId userId : string)
    (options : CallOptions) : Promise Payload :=
  then_
    (axios_get ("/v2/bot/room/" +:+ roomId +:+ "/member/" +:+ userId)
       (authorizationConfig (accessToken options)))
    res_data_ handleError.

(** [`${start ? `?start=${start}` : ''}`] *)
Definition startQuery (start : Value) : string :=
  if truthy start then "?start=" +:+ toString start else EmptyString.

Definition getGroupMemberIds (groupId : string) (start : Value)
    (options : CallOptions) : Promise Payload :=
  then_
    (axios_get ("/v2/bot/group/" +:+ groupId +:+ "/members/ids" +:+ startQuery start)
       (authorizationConfig (accessToken options)))
    res_data_ handleError.

Definition getRoomMemberIds (roomId : string) (start : Value)
    (options : CallOptions) : Promise Payload :=
  then_
    (axios_get ("/v2/bot/room/" +:+ roomId +:+ "/members/ids" +:+ startQuery start)
       (authorizationConfig (accessToken options)))
    res_data_ handleError.

(** [const { memberIds, next } = page] *)
Definition destructure_page (page : Payload) : Completion (Value * Value) :=
  match get_property "memberIds" page, get_property "next" page with
  | Return memberIds, Return next => Return (memberIds, next)
  | Throw e, _ | _, Throw e => Throw e
  | _, _ => Pending
  end.

(** The [do ... while (continuationToken)] loop shared, up to the page
    fetcher, by [getAllGroupMemberIds] and [getAllRoomMemberIds].
    [fuel] bounds the number of rounds; [None] means it ran out. *)
Fixpoint getAllMemberIds_loop (fuel : nat) (fetch : Value -> Promise Payload)
    (allMemberIds : list Value) (continuationToken : Value) (st : State)
  : option (Completion (list Value) * State) :=
  match fuel with
  | O => None
  | S fuel =>
      match fetch continuationToken st with
      | (Return page, st) =>
          match destructure_page page with
          | Return (memberIds, next) =>
              let allMemberIds := array_concat allMemberIds memberIds in
              let continuationToken := next in
              if truthy continuationToken
              then getAllMemberIds_loop fuel fetch allMemberIds continuationToken st
              else Some (Return allMemberIds, st)
          | Throw e => Some (Throw e, st)
          | Pending => Some (Pending, st)
          end
      | (Throw e, st) => Some (Throw e, st)
      | (Pending, st) => Some (Pending, st)
      end
  end.

(** Every round takes one answer from the network, so one round more
    than there are answers is fuel enough ([getAllMemberIds_loop_fuel]
    below). *)
Definition getAllMemberIds (fetch : Value -> Promise Payload)
  : Promise (list Value) :=
  fun st =>
    match getAllMemberIds_loop (S (length (network st))) fetch [] VUndefined st with
    | Some result => result
    | None => (Pending, st)
    end.

Definition getAllGroupMemberIds (groupId : string) (options : CallOptions)
  : Promise (list Value) :=
  getAllMemberIds (fun continuationToken =>
    getGroupMemberIds groupId continuationToken options).

Definition getAllRoomMemberIds (roomId : string) (options : CallOptions)
  : Promise (list Value) :=
  getAllMemberIds (fun continuationToken =>
    getRoomMemberIds roomId continuationToken options).

Definition leaveGroup (groupId : string) (options : CallOptions)
  : Promise Payload :=
  then_
    (axios_post ("/v2/bot/group/" +:+ groupId +:+ "/leave") (JsonData VNull)
       (authorizationConfig (accessToken options)))
    res_data_ handleError.

Definition leaveRoom (roomId : string) (options : CallOptions)
  : Promise Payload :=
  then_
    (axios_post ("/v2/bot/room/" +:+ roomId +:+ "/leave") (JsonData VNull)
       (authorizationConfig (accessToken options)))
    res_data_ handleError.

Definition getRichMenuList (options : CallOptions)
  : Promise Payload :=
  then_
    (axios_get "/v2/bot/richmenu/list"
       (authorizationConfig (accessToken options)))
    (res_data_property "richmenus") handleError.

Definition getRichMenu (richMenuId : string) (options : CallOptions)
  : Promise Payload :=
  catch
    (then_
       (axios_get ("/v2/bot/richmenu/" +:+ richMenuId)
          (authorizationConfig (accessToken options)))
       res_data_ Throw)
    nullOn404.

Definition createRichMenu (richMenu : Value) (options : CallOptions)
  : Promise Payload :=
  then_
    (axios_post "/v2/bot/richmenu" (JsonData richMenu)
       (authorizationConfig (accessToken options)))
    res_data_ handleError.

Definition deleteRichMenu (richMenuId : string) (options : CallOptions)
  : Promise Payload :=
  then_
    (axios_delete ("/v2/bot/richmenu/" +:+ richMenuId)
       (authorizationConfig (accessToken options)))
    res_data_ handleError.

Definition getLinkedRichMenu (userId : string) (options : CallOptions)
  : Promise Payload :=
  catch
    (then_
       (axios_get ("/v2/bot/user/" +:+ userId +:+ "/richmenu")
          (authorizationConfig (accessToken options)))
       res_data_ Throw)
    nullOn404.

Definition linkRichMenu (userId richMenuId : string) (options : CallOptions)
  : Promise Payload :=
  then_
    (axios_post ("/v2/bot/user/" +:+ userId +:+ "/richmenu/" +:+ richMenuId) (JsonData VNull)
       (authorizationConfig (accessToken options)))
    res_data_ handleError.

Definition unlinkRichMenu (userId : string) (options : CallOptions)
  : Promise Payload :=
  then_
    (axios_delete ("/v2/bot/user/" +:+ userId +:+ "/richmenu")
       (authorizationConfig (accessToken options)))
    res_data_ handleError.

Definition getDefaultRichMenu (options : CallOptions)
  : Promise Payload :=
  catch
    (then_
       (axios_get "/v2/bot/user/all/richmenu"
          (authorizationConfig (accessToken options)))
       res_data_ Throw)
    nullOn404.

Definition setDefaultRichMenu (richMenuId : string) (options : CallOptions)
  : Promise Payload :=
  then_
    (axios_post ("/v2/bot/user/all/richmenu/" +:+ richMenuId) (JsonData VNull)
       (authorizationConfig (accessToken options)))
    res_data_ handleError.

Definition deleteDefaultRichMenu (options : CallOptions)
  : Promise Payload :=
  then_
    (axios_delete "/v2/bot/user/all/richmenu"
       (authorizationConfig (accessToken options)))
    res_data_ handleError.

(** The error [invariant] throws when its condition is falsy. *)
Definition invariant (condition : bool) (format : string) : option JsError :=
  if condition then None else Some (InvariantViolation format).

Definition uploadRichMenuImage (richMenuId : string) (image : Buffer)
    (options : CallOptions) : Promise Payload :=
  let type := imageType image in
  match
    invariant
      match type with
      | Some t => String.eqb (mime t) "image/jpeg" || String.eqb (mime t) "image/png"
      | None => false
      end
      "Image must be `image/jpeg` or `image/png`"
  with
  | Some violation => throw violation
  | None =>
      then_
        (axios_post ("/v2/bot/richmenu/" +:+ richMenuId +:+ "/content")
           (BinaryData image)
           (Some
              {| responseType := None;
                 headers :=
                   spreadAuthorization (accessToken options)
                   ∪ {[ "Content-Type" := from_option mime EmptyString type ]} |}))
        res_data_ handleError
  end.

Definition downloadRichMenuImage (richMenuId : string) (options : CallOptions)
  : Promise Payload :=
  catch
    (then_
       (axios_get ("/v2/bot/richmenu/" +:+ richMenuId +:+ "/content")
          (Some
             {| responseType := Some "arraybuffer";
                headers := spreadAuthorization (accessToken options) |}))
       res_data_buffer Throw)
    nullOn404.

Definition issueLinkToken (userId : string) (options : CallOptions)
  : Promise Payload :=
  then_
    (axios_post ("/v2/bot/user/" +:+ userId +:+ "/linkToken") (JsonData VNull)
       (authorizationConfig (accessToken options)))
    res_data_ handleError.

Definition getLiffAppList (options : CallOptions)
  : Promise Payload :=
  then_
    (axios_get "/liff/v1/apps"
       (authorizationConfig (accessToken options)))
    (res_data_property "apps") handleError.

Definition createLiffApp (view : Value) (options : CallOptions)
  : Promise Payload :=
  then_
    (axios_post "/liff/v1/apps" (JsonData view)
       (authorizationConfig (accessToken options)))
    res_data_ handleError.

Definition updateLiffApp (liffId : string) (view : Value) (options : CallOptions)
  : Promise Payload :=
  then_
    (axios_put ("/liff/v1/apps/" +:+ liffId +:+ "/view") (JsonData view)
       (authorizationConfig (accessToken options)))
    res_data_ handleError.

Definition deleteLiffApp (liffId : string) (options : CallOptions)
  : Promise Payload :=
  then_
    (axios_delete ("/liff/v1/apps/" +:+ liffId)
       (authorizationConfig (accessToken options)))
    res_data_ handleError.

(** ** The public operations as one type

    The adapters for the kinds of message ([replyText], [pushImage],
    [multicastTemplate], ...) build one message with the builders of
    [Line] and hand it to [_send]; [replyMessages], [pushMessages] and
    [multicastMessages] are [reply], [push] and [multicast].  They are
    the calls [Send], [Reply], [Push] and [Multicast] below at the
    message list they build. *)
Inductive Call : Type :=
| Send (type : string) (target : Value) (messages : list Value)
| Reply (replyToken : Value) (messages : list Value)
| Push (to : Value) (messages : list Value)
| Multicast (to : Value) (messages : list Value)
| ReplyRawBody (body : Value)
| PushRawBody (body : Value)
| MulticastRawBody (body : Value)
| RetrieveMessageContent (messageId : string)
| GetUserProfile (userId : string)
| GetGroupMemberProfile (groupId userId : string)
| GetRoomMemberProfile (roomId userId : string)
| GetGroupMemberIds (groupId : string) (start : Value)
| GetAllGroupMemberIds (groupId : string)
| GetRoomMemberIds (roomId : string) (start : Value)
| GetAllRoomMemberIds (roomId : string)
| LeaveGroup (groupId : string)
| LeaveRoom (roomId : string)
| GetRichMenuList
| GetRichMenu (richMenuId : string)
| CreateRichMenu (richMenu : Value)
| DeleteRichMenu (richMenuId : string)
| GetLinkedRichMenu (userId : string)
| LinkRichMenu (userId richMenuId : string)
| UnlinkRichMenu (userId : string)
| GetDefaultRichMenu
| SetDefaultRichMenu (richMenuId : string)
| DeleteDefaultRichMenu
| UploadRichMenuImage (richMenuId : string) (image : Buffer)
| DownloadRichMenuImage (richMenuId : string)
| IssueLinkToken (userId : string)
| GetLiffAppList
| CreateLiffApp (view : Value)
| UpdateLiffApp (liffId : string) (view : Value)
| DeleteLiffApp (liffId : string).

(** [return allMemberIds] as the value the caller receives. *)
Definition asArray (p : Promise (list Value)) : Promise Payload :=
  then_ p (fun ids => Return (JsonData (VArr ids))) Throw.

Definition perform (call : Call) (options : CallOptions) : Promise Payload :=
  match call with
  | Send type target messages => _send type target messages options
  | Reply replyToken messages => reply replyToken messages options
  | Push to messages => push to messages options
  | Multicast to messages => multicast to messages options
  | ReplyRawBody body => replyRawBody body options
  | PushRawBody body => pushRawBody body options
  | MulticastRawBody body => multicastRawBody body options
  | RetrieveMessageContent messageId => retrieveMessageContent messageId options
  | GetUserProfile userId => getUserProfile userId options
  | GetGroupMemberProfile groupId userId =>
      getGroupMemberProfile groupId userId options
  | GetRoomMemberProfile roomId userId =>
      getRoomMemberProfile roomId userId options
  | GetGroupMemberIds groupId start => getGroupMemberIds groupId start options
  | GetAllGroupMemberIds groupId => asArray (getAllGroupMemberIds groupId options)
  | GetRoomMemberIds roomId start => getRoomMemberIds roomId start options
  | GetAllRoomMemberIds roomId => asArray (getAllRoomMemberIds roomId options)
  | LeaveGroup groupId => leaveGroup groupId options
  | LeaveRoom roomId => leaveRoom roomId options
  | GetRichMenuList => getRichMenuList options
  | GetRichMenu richMenuId => getRichMenu richMenuId options
  | CreateRichMenu richMenu => createRichMenu richMenu options
  | DeleteRichMenu richMenuId => deleteRichMenu richMenuId options
  | GetLinkedRichMenu userId => getLinkedRichMenu userId options
  | LinkRichMenu userId richMenuId => linkRichMenu userId richMenuId options
  | UnlinkRichMenu userId => unlinkRichMenu userId options
  | GetDefaultRichMenu => getDefaultRichMenu options
  | SetDefaultRichMenu richMenuId => setDefaultRichMenu richMenuId options
  | DeleteDefaultRichMenu => deleteDefaultRichMenu options
  | UploadRichMenuImage richMenuId image =>
      uploadRichMenuImage richMenuId image options
  | DownloadRichMenuImage richMenuId => downloadRichMenuImage richMenuId options
  | IssueLinkToken userId => issueLinkToken userId options
  | GetLiffAppList => getLiffAppList options
  | CreateLiffApp view => createLiffApp view options
  | UpdateLiffApp liffId view => updateLiffApp liffId view options
  | DeleteLiffApp liffId => deleteLiffApp liffId options
  end.

(** The lookups the specification lists as answering [null] for a
    missing resource. *)
Definition softened (call : Call) : bool :=
  match call with
  | GetUserProfile _ | GetRichMenu _ | GetLinkedRichMenu _
  | GetDefaultRichMenu | DownloadRichMenuImage _ => true
  | _ => false
  end.

(** Whether the call gets as far as its first request:
    [uploadRichMenuImage] checks the image first. *)
Definition accepted (image : Buffer) : bool :=
  match imageType image with
  | Some t => String.eqb (mime t) "image/jpeg" || String.eqb (mime t) "image/png"
  | None => false
  end.

Definition preflight (call : Call) : bool :=
  match call with
  | UploadRichMenuImage _ image => accepted image
  | _ => true
  end.

(** ** The adapters for the kinds of message

    The options of an adapter are one object, which goes to the builder
    of the message and to [_send]: the access token, which the client
    reads, and the other properties, which only the builders read.  An
    argument left out is [None]. *)
Record MessageOptions : Type := mkMessageOptions {
  options_accessToken : option string;
  options_rest : list (string * Value)
}.

(** [{}] *)
Definition noMessageOptions : MessageOptions :=
  {| options_accessToken := None; options_rest := [] |}.

(** The options as the endpoints read them. *)
Definition callOptions (options : option MessageOptions) : CallOptions :=
  {| accessToken := options ≫= options_accessToken |}.

(** The last argument of the carousel adapters,
    [{ imageAspectRatio, imageSize, ...options }]. *)
Record CarouselOptions : Type := mkCarouselOptions {
  imageAspectRatio : Value;
  imageSize : Value;
  carousel_options : MessageOptions
}.

Definition noCarouselOptions : CarouselOptions :=
  {| imageAspectRatio := VUndefined;
     imageSize := VUndefined;
     carousel_options := noMessageOptions |}.

(** The builders of [./Line], which is not among the sources: each makes
    a message of its arguments. *)
Record LineBuilders : Type := mkLineBuilders {
  createText : string → MessageOptions → Value;
  createImage : Value → MessageOptions → Value;
  createVideo : Value → MessageOptions → Value;
  createAudio : Value → MessageOptions → Value;
  createLocation : Value → MessageOptions → Value;
  createSticker : Value → MessageOptions → Value;
  createImagemap : string → Value → MessageOptions → Value;
  createFlex : string → Value → MessageOptions → Value;
  createTemplate : string → Value → MessageOptions → Value;
  createButtonTemplate : string → Value → MessageOptions → Value;
  createConfirmTemplate : string → Value → MessageOptions → Value;
  createCarouselTemplate : string → Value → CarouselOptions → Value;
  createImageCarouselTemplate : string → Value → MessageOptions → Value
}.

Variable Line : LineBuilders.

(** [{ k1, k2, ... }] built from the properties destructured out of an
    object: the named properties, [undefined] for a missing one, and
    nothing else. *)
Definition pick (keys : list string) (fields : list (string * Value)) : Value :=
  VObj (map (λ k, (k, assoc k fields)) keys).

Definition _sendText (type : string) (target : Value) (text : string)
    (options : option MessageOptions) : Promise Payload :=
  _send type target
    [createText Line text (default noMessageOptions options)]
    (callOptions options).

Definition _sendImage (type : string) (target : Value) (image : Value)
    (options : option MessageOptions) : Promise Payload :=
  let options := default noMessageOptions options in
  _send type target
    [createImage Line image options]
    (callOptions (Some options)).

Definition _sendVideo (type : string) (target : Value) (video : Value)
    (options : option MessageOptions) : Promise Payload :=
  let options := default noMessageOptions options in
  _send type target
    [createVideo Line video (default noMessageOptions (Some options))]
    (callOptions (Some options)).

Definition _sendAudio (type : string) (target : Value) (audio : Value)
    (options : option MessageOptions) : Promise Payload :=
  let options := default noMessageOptions options in
  _send type target
    [createAudio Line audio options]
    (callOptions (Some options)).

Definition _sendLocation (type : string) (target : Value) (location : Value)
    (options : option MessageOptions) : Promise Payload :=
  let options := default noMessageOptions options in
  _send type target
    [createLocation Line location options]
    (callOptions (Some options)).

Definition _sendSticker (type : string) (target : Value) (sticker : Value)
    (options : option MessageOptions) : Promise Payload :=
  let options := default noMessageOptions options in
  _send type target
    [createSticker Line sticker options]
    (callOptions (Some options)).

Definition _sendImagemap (type : string) (target : Value) (altText : string)
    (imagemap : list (string * Value)) (options : option MessageOptions)
  : Promise Payload :=
  _send type target
    [createImagemap Line altText
       (pick ["baseUrl"; "baseSize"; "video"; "actions"] imagemap)
       (default noMessageOptions options)]
    (callOptions options).

Definition _sendFlex (type : string) (target : Value) (altText : string)
    (flex : Value) (options : option MessageOptions) : Promise Payload :=
  _send type target
    [createFlex Line altText flex (default noMessageOptions options)]
    (callOptions options).

Definition _sendTemplate (type : string) (target : Value) (altText : string)
    (template : Value) (options : option MessageOptions) : Promise Payload :=
  _send type target
    [createTemplate Line altText template (default noMessageOptions options)]
    (callOptions options).

Definition _sendButtonTemplate (type : string) (target : Value) (altText : string)
    (buttonTemplate : list (string * Value)) (options : option MessageOptions)
  : Promise Payload :=
  _send type target
    [createButtonTemplate Line altText
       (pick ["thumbnailImageUrl"; "imageAspectRatio"; "imageSize";
              "imageBackgroundColor"; "title"; "text"; "defaultAction"; "actions"]
          buttonTemplate)
       (default noMessageOptions options)]
    (callOptions options).

Definition _sendConfirmTemplate (type : string) (target : Value) (altText : string)
    (confirmTemplate : list (string * Value)) (options : option MessageOptions)
  : Promise Payload :=
  _send type target
    [createConfirmTemplate Line altText
       (pick ["text"; "actions"] confirmTemplate)
       (default noMessageOptions options)]
    (callOptions options).

(** The last argument is taken apart and put together again for the
    builder; [_send] gets what is left without the two properties. *)
Definition _sendCarouselTemplate (type : string) (target : Value) (altText : string)
    (columns : Value) (carousel : option CarouselOptions) : Promise Payload :=
  let '{| imageAspectRatio := imageAspectRatio;
          imageSize := imageSize;
          carousel_options := options |} := default noCarouselOptions carousel in
  _send type target
    [createCarouselTemplate Line altText columns
       {| imageAspectRatio := imageAspectRatio;
          imageSize := imageSize;
          carousel_options := options |}]
    (callOptions (Some options)).

Definition _sendImageCarouselTemplate (type : string) (target : Value)
    (altText : string) (columns : Value) (options : option MessageOptions)
  : Promise Payload :=
  _send type target
    [createImageCarouselTemplate Line altText columns
       (default noMessageOptions options)]
    (callOptions options).

Definition replyMessages (replyToken : Value) (messages : list Value)
    (options : CallOptions) : Promise Payload :=
  reply replyToken messages options.

Definition replyText (replyToken : Value) (text : string)
    (options : option MessageOptions) : Promise Payload :=
  _sendText "reply" replyToken text options.

Definition replyImage (replyToken : Value) (image : Value)
    (options : option MessageOptions) : Promise Payload :=
  _sendImage "reply" replyToken image options.

Definition replyVideo (replyToken : Value) (video : Value)
    (options : option MessageOptions) : Promise Payload :=
  _sendVideo "reply" replyToken video (Some (default noMessageOptions options)).

Definition replyAudio (replyToken : Value) (audio : Value)
    (options : option MessageOptions) : Promise Payload :=
  _sendAudio "reply" replyToken audio (Some (default noMessageOptions options)).

Definition replyLocation (replyToken : Value) (location : Value)
    (options : option MessageOptions) : Promise Payload :=
  _sendLocation "reply" replyToken location (Some (default noMessageOptions options)).

Definition replySticker (replyToken : Value) (sticker : Value)
    (options : option MessageOptions) : Promise Payload :=
  _sendSticker "reply" replyToken sticker (Some (default noMessageOptions options)).

Definition replyImagemap (replyToken : Value) (altText : string)
    (imagemap : list (string * Value)) (options : option MessageOptions)
  : Promise Payload :=
  _sendImagemap "reply" replyToken altText imagemap options.

Definition replyFlex (replyToken : Value) (altText : string) (flex : Value)
    (options : option MessageOptions) : Promise Payload :=
  _sendFlex "reply" replyToken altText flex options.

Definition replyTemplate (replyToken : Value) (altText : string) (template : Value)
    (options : option MessageOptions) : Promise Payload :=
  _sendTemplate "reply" replyToken altText template options.

Definition replyButtonTemplate (replyToken : Value) (altText : string)
    (buttonTemplate : list (string * Value)) (options : option MessageOptions)
  : Promise Payload :=
  _sendButtonTemplate "reply" replyToken altText buttonTemplate options.

Definition replyButtonsTemplate (replyToken : Value) (altText : string)
    (buttonTemplate : list (string * Value)) (options : option MessageOptions)
  : Promise Payload :=
  replyButtonTemplate replyToken altText buttonTemplate options.

Definition replyConfirmTemplate (replyToken : Value) (altText : string)
    (confirmTemplate : list (string * Value)) (options : option MessageOptions)
  : Promise Payload :=
  _sendConfirmTemplate "reply" replyToken altText confirmTemplate options.

Definition replyCarouselTemplate (replyToken : Value) (altText : string)
    (columns : Value) (carousel : option CarouselOptions) : Promise Payload :=
  let '{| imageAspectRatio := imageAspectRatio;
          imageSize := imageSize;
          carousel_options := options |} := default noCarouselOptions carousel in
  _sendCarouselTemplate "reply" replyToken altText columns
    (Some {| imageAspectRatio := imageAspectRatio;
             imageSize := imageSize;
             carousel_options := options |}).

Definition replyImageCarouselTemplate (replyToken : Value) (altText : string)
    (columns : Value) (options : option MessageOptions) : Promise Payload :=
  _sendImageCarouselTemplate "reply" replyToken altText columns options.

Definition pushMessages (to : Value) (messages : list Value)
    (options : CallOptions) : Promise Payload :=
  push to messages options.

Definition pushText (to : Value) (text : string)
    (options : option MessageOptions) : Promise Payload :=
  _sendText "push" to text options.

Definition pushImage (to : Value) (image : Value)
    (options : option MessageOptions) : Promise Payload :=
  _sendImage "push" to image options.

Definition pushVideo (to : Value) (video : Value)
    (options : option MessageOptions) : Promise Payload :=
  _sendVideo "push" to video (Some (default noMessageOptions options)).

Definition pushAudio (to : Value) (audio : Value)
    (options : option MessageOptions) : Promise Payload :=
  _sendAudio "push" to audio (Some (default noMessageOptions options)).

Definition pushLocation (to : Value) (location : Value)
    (options : option MessageOptions) : Promise Payload :=
  _sendLocation "push" to location (Some (default noMessageOptions options)).

Definition pushSticker (to : Value) (sticker : Value)
    (options : option MessageOptions) : Promise Payload :=
  _sendSticker "push" to sticker (Some (default noMessageOptions options)).

Definition pushImagemap (to : Value) (altText : string)
    (imagemap : list (string * Value)) (options : option MessageOptions)
  : Promise Payload :=
  _sendImagemap "push" to altText imagemap options.

Definition pushFlex (to : Value) (altText : string) (flex : Value)
    (options : option MessageOptions) : Promise Payload :=
  _sendFlex "push" to altText flex options.

Definition pushTemplate (to : Value) (altText : string) (template : Value)
    (options : option MessageOptions) : Promise Payload :=
  _sendTemplate "push" to altText template options.

Definition pushButtonTemplate (to : Value) (altText : string)
    (buttonTemplate : list (string * Value)) (options : option MessageOptions)
  : Promise Payload :=
  _sendButtonTemplate "push" to altText buttonTemplate options.

Definition pushButtonsTemplate (to : Value) (altText : string)
    (buttonTemplate : list (string * Value)) (options : option MessageOptions)
  : Promise Payload :=
  pushButtonTemplate to altText buttonTemplate options.

Definition pushConfirmTemplate (to : Value) (altText : string)
    (confirmTemplate : list (string * Value)) (options : option MessageOptions)
  : Promise Payload :=
  _sendConfirmTemplate "push" to altText confirmTemplate options.

Definition pushCarouselTemplate (to : Value) (altText : string)
    (columns : Value) (carousel : option CarouselOptions) : Promise Payload :=
  let '{| imageAspectRatio := imageAspectRatio;
          imageSize := imageSize;
          carousel_options := options |} := default noCarouselOptions carousel in
  _sendCarouselTemplate "push" to altText columns
    (Some {| imageAspectRatio := imageAspectRatio;
             imageSize := imageSize;
             carousel_options := options |}).

Definition pushImageCarouselTemplate (to : Value) (altText : string)
    (columns : Value) (options : option MessageOptions) : Promise Payload :=
  _sendImageCarouselTemplate "push" to altText columns options.

Definition multicastMessages (to : Value) (messages : list Value)
    (options : CallOptions) : Promise Payload :=
  multicast to messages options.

Definition multicastText (to : Value) (text : string)
    (options : option MessageOptions) : Promise Payload :=
  _sendText "multicast" to text options.

Definition multicastImage (to : Value) (image : Value)
    (options : option MessageOptions) : Promise Payload :=
  _sendImage "multicast" to image options.

Definition multicastVideo (to : Value) (video : Value)
    (options : option MessageOptions) : Promise Payload :=
  _sendVideo "multicast" to video (Some (default noMessageOptions options)).

Definition multicastAudio (to : Value) (audio : Value)
    (options : option MessageOptions) : Promise Payload :=
  _sendAudio "multicast" to audio (Some (default noMessageOptions options)).

Definition multicastLocation (to : Value) (location : Value)
    (options : option MessageOptions) : Promise Payload :=
  _sendLocation "multicast" to location (Some (default noMessageOptions options)).

Definition multicastSticker (to : Value) (sticker : Value)
    (options : option MessageOptions) : Promise Payload :=
  _sendSticker "multicast" to sticker (Some (default noMessageOptions options)).

Definition multicastImagemap (to : Value) (altText : string)
    (imagemap : list (string * Value)) (options : option MessageOptions)
  : Promise Payload :=
  _sendImagemap "multicast" to altText imagemap options.

Definition multicastFlex (to : Value) (altText : string) (flex : Value)
    (options : option MessageOptions) : Promise Payload :=
  _sendFlex "multicast" to altText flex options.

Definition multicastTemplate (to : Value) (altText : string) (template : Value)
    (options : option MessageOptions) : Promise Payload :=
  _sendTemplate "multicast" to altText template options.

Definition multicastButtonTemplate (to : Value) (altText : string)
    (buttonTemplate : list (string * Value)) (options : option MessageOptions)
  : Promise Payload :=
  _sendButtonTemplate "multicast" to altText buttonTemplate options.

Definition multicastButtonsTemplate (to : Value) (altText : string)
    (buttonTemplate : list (string * Value)) (options : option MessageOptions)
  : Promise Payload :=
  multicastButtonTemplate to altText buttonTemplate options.

Definition multicastConfirmTemplate (to : Value) (altText : string)
    (confirmTemplate : list (string * Value)) (options : option MessageOptions)
  : Promise Payload :=
  _sendConfirmTemplate "multicast" to altText confirmTemplate options.

Definition multicastCarouselTemplate (to : Value) (altText : string)
    (columns : Value) (carousel : option CarouselOptions) : Promise Payload :=
  let '{| imageAspectRatio := imageAspectRatio;
          imageSize := imageSize;
          carousel_options := options |} := default noCarouselOptions carousel in
  _sendCarouselTemplate "multicast" to altText columns
    (Some {| imageAspectRatio := imageAspectRatio;
             imageSize := imageSize;
             carousel_options := options |}).

Definition multicastImageCarouselTemplate (to : Value) (altText : string)
    (columns : Value) (options : option MessageOptions) : Promise Payload :=
  _sendImageCarouselTemplate "multicast" to altText columns options.

(** ** The adapters as one type *)

Inductive Mode : Type := ToReply | ToPush | ToMulticast.

(** A kind of message with the arguments its adapters take after the
    target. *)
Inductive MessageKind : Type :=
| TextMessage (text : string) (options : option MessageOptions)
| ImageMessage (image : Value) (options : option MessageOptions)
| VideoMessage (video : Value) (options : option MessageOptions)
| AudioMessage (audio : Value) (options : option MessageOptions)
| LocationMessage (location : Value) (options : option MessageOptions)
| StickerMessage (sticker : Value) (options : option MessageOptions)
| ImagemapMessage (altText : string) (imagemap : list (string * Value)) (options : option MessageOptions)
| FlexMessage (altText : string) (flex : Value) (options : option MessageOptions)
| TemplateMessage (altText : string) (template : Value) (options : option MessageOptions)
| ButtonTemplateMessage (altText : string) (buttonTemplate : list (string * Value)) (options : option MessageOptions)
| ButtonsTemplateMessage (altText : string) (buttonTemplate : list (string * Value)) (options : option MessageOptions)
| ConfirmTemplateMessage (altText : string) (confirmTemplate : list (string * Value)) (options : option MessageOptions)
| CarouselTemplateMessage (altText : string) (columns : Value) (carousel : option CarouselOptions)
| ImageCarouselTemplateMessage (altText : string) (columns : Value) (options : option MessageOptions).

(** The adapter of a mode and a kind. *)
Definition send_message (mode : Mode) (target : Value) (message : MessageKind)
  : Promise Payload :=
  match mode, message with
  | ToReply, TextMessage text options =>
      replyText target text options
  | ToReply, ImageMessage image options =>
      replyImage target image options
  | ToReply, VideoMessage video options =>
      replyVideo target video options
  | ToReply, AudioMessage audio options =>
      replyAudio target audio options
  | ToReply, LocationMessage location options =>
      replyLocation target location options
  | ToReply, StickerMessage sticker options =>
      replySticker target sticker options
  | ToReply, ImagemapMessage altText imagemap options =>
      replyImagemap target altText imagemap options
  | ToReply, FlexMessage altText flex options =>
      replyFlex target altText flex options
  | ToReply, TemplateMessage altText template options =>
      replyTemplate target altText template options
  | ToReply, ButtonTemplateMessage altText buttonTemplate options =>
      replyButtonTemplate target altText buttonTemplate options
  | ToReply, ButtonsTemplateMessage altText buttonTemplate options =>
      replyButtonsTemplate target altText buttonTemplate options
  | ToReply, ConfirmTemplateMessage altText confirmTemplate options =>
      replyConfirmTemplate target altText confirmTemplate options
  | ToReply, CarouselTemplateMessage altText columns carousel =>
      replyCarouselTemplate target altText columns carousel
  | ToReply, ImageCarouselTemplateMessage altText columns options =>
      replyImageCarouselTemplate target altText columns options
  | ToPush, TextMessage text options =>
      pushText target text options
  | ToPush, ImageMessage image options =>
      pushImage target image options
  | ToPush, VideoMessage video options =>
      pushVideo target video options
  | ToPush, AudioMessage audio options =>
      pushAudio target audio options
  | ToPush, LocationMessage location options =>
      pushLocation target location options
  | ToPush, StickerMessage sticker options =>
      pushSticker target sticker options
  | ToPush, ImagemapMessage altText imagemap options =>
      pushImagemap target altText imagemap options
  | ToPush, FlexMessage altText flex options =>
      pushFlex target altText flex options
  | ToPush, TemplateMessage altText template options =>
      pushTemplate target altText template options
  | ToPush, ButtonTemplateMessage altText buttonTemplate options =>
      pushButtonTemplate target altText buttonTemplate options
  | ToPush, ButtonsTemplateMessage altText buttonTemplate options =>
      pushButtonsTemplate target altText buttonTemplate options
  | ToPush, ConfirmTemplateMessage altText confirmTemplate options =>
      pushConfirmTemplate target altText confirmTemplate options
  | ToPush, CarouselTemplateMessage altText columns carousel =>
      pushCarouselTemplate target altText columns carousel
  | ToPush, ImageCarouselTemplateMessage altText columns options =>
      pushImageCarouselTemplate target altText columns options
  | ToMulticast, TextMessage text options =>
      multicastText target text options
  | ToMulticast, ImageMessage image options =>
      multicastImage target image options
  | ToMulticast, VideoMessage video options =>
      multicastVideo target video options
  | ToMulticast, AudioMessage audio options =>
      multicastAudio target audio options
  | ToMulticast, LocationMessage location options =>
      multicastLocation target location options
  | ToMulticast, StickerMessage sticker options =>
      multicastSticker target sticker options
  | ToMulticast, ImagemapMessage altText imagemap options =>
      multicastImagemap target altText imagemap options
  | ToMulticast, FlexMessage altText flex options =>
      multicastFlex target altText flex options
  | ToMulticast, TemplateMessage altText template options =>
      multicastTemplate target altText template options
  | ToMulticast, ButtonTemplateMessage altText buttonTemplate options =>
      multicastButtonTemplate target altText buttonTemplate options
  | ToMulticast, ButtonsTemplateMessage altText buttonTemplate options =>
      multicastButtonsTemplate target altText buttonTemplate options
  | ToMulticast, ConfirmTemplateMessage altText confirmTemplate options =>
      multicastConfirmTemplate target altText confirmTemplate options
  | ToMulticast, CarouselTemplateMessage altText columns carousel =>
      multicastCarouselTemplate target altText columns carousel
  | ToMulticast, ImageCarouselTemplateMessage altText columns options =>
      multicastImageCarouselTemplate target altText columns options
  end.

(** The path and the name of the target in the body, by mode. *)
Definition path (mode : Mode) : string :=
  match mode with
  | ToReply => "/v2/bot/message/reply"
  | ToPush => "/v2/bot/message/push"
  | ToMulticast => "/v2/bot/message/multicast"
  end.

Definition target_key (mode : Mode) : string :=
  match mode with
  | ToReply => "replyToken"
  | ToPush | ToMulticast => "to"
  end.

(** The message a kind stands for: what the builder of that kind makes
    of the arguments, the options being [{}] when left out. *)
Definition message_of (message : MessageKind) : Value :=
  match message with
  | TextMessage text options =>
      createText Line text (default noMessageOptions options)
  | ImageMessage image options =>
      createImage Line image (default noMessageOptions options)
  | VideoMessage video options =>
      createVideo Line video (default noMessageOptions options)
  | AudioMessage audio options =>
      createAudio Line audio (default noMessageOptions options)
  | LocationMessage location options =>
      createLocation Line location (default noMessageOptions options)
  | StickerMessage sticker options =>
      createSticker Line sticker (default noMessageOptions options)
  | ImagemapMessage altText imagemap options =>
      createImagemap Line altText
        (VObj [("baseUrl", assoc "baseUrl" imagemap);
               ("baseSize", assoc "baseSize" imagemap);
               ("video", assoc "video" imagemap);
               ("actions", assoc "actions" imagemap)])
        (default noMessageOptions options)
  | FlexMessage altText flex options =>
      createFlex Line altText flex (default noMessageOptions options)
  | TemplateMessage altText template options =>
      createTemplate Line altText template (default noMessageOptions options)
  | ButtonTemplateMessage altText buttonTemplate options
  | ButtonsTemplateMessage altText buttonTemplate options =>
      createButtonTemplate Line altText
        (VObj [("thumbnailImageUrl", assoc "thumbnailImageUrl" buttonTemplate);
               ("imageAspectRatio", assoc "imageAspectRatio" buttonTemplate);
               ("imageSize", assoc "imageSize" buttonTemplate);
               ("imageBackgroundColor", assoc "imageBackgroundColor" buttonTemplate);
               ("title", assoc "title" buttonTemplate);
               ("text", assoc "text" buttonTemplate);
               ("defaultAction", assoc "defaultAction" buttonTemplate);
               ("actions", assoc "actions" buttonTemplate)])
        (default noMessageOptions options)
  | ConfirmTemplateMessage altText confirmTemplate options =>
      createConfirmTemplate Line altText
        (VObj [("text", assoc "text" confirmTemplate);
               ("actions", assoc "actions" confirmTemplate)])
        (default noMessageOptions options)
  | CarouselTemplateMessage altText columns carousel =>
      createCarouselTemplate Line altText columns
        (default noCarouselOptions carousel)
  | ImageCarouselTemplateMessage altText columns options =>
      createImageCarouselTemplate Line altText columns
        (default noMessageOptions options)
  end.

(** The access token among the options of a kind. *)
Definition override_of (message : MessageKind) : option string :=
  match message with
  | TextMessage _ options | ImageMessage _ options | VideoMessage _ options
  | AudioMessage _ options | LocationMessage _ options
  | StickerMessage _ options | ImagemapMessage _ _ options
  | FlexMessage _ _ options | TemplateMessage _ _ options
  | ButtonTemplateMessage _ _ options | ButtonsTemplateMessage _ _ options
  | ConfirmTemplateMessage _ _ options
  | ImageCarouselTemplateMessage _ _ options =>
      options ≫= options_accessToken
  | CarouselTemplateMessage _ _ carousel =>
      carousel ≫= (λ c, options_accessToken (carousel_options c))
  end.

(** Two objects with the same properties of the given names. *)
Definition agree_on (keys : list string) (a b : list (string * Value)) : Prop :=
  Forall (λ k, assoc k a = assoc k b) keys.

(** Builders for the examples: a message that shows its kind and
    content. *)
Definition exampleLine : LineBuilders :=
  {| createText := λ text _, VObj [("type", VStr "text"); ("text", VStr text)];
     createImage := λ image _, VObj [("type", VStr "image"); ("content", image)];
     createVideo := λ video _, VObj [("type", VStr "video"); ("content", video)];
     createAudio := λ audio _, VObj [("type", VStr "audio"); ("content", audio)];
     createLocation := λ location _,
       VObj [("type", VStr "location"); ("content", location)];
     createSticker := λ sticker _,
       VObj [("type", VStr "sticker"); ("content", sticker)];
     createImagemap := λ altText imagemap _,
       VObj [("type", VStr "imagemap"); ("altText", VStr altText);
             ("content", imagemap)];
     createFlex := λ altText flex _,
       VObj [("type", VStr "flex"); ("altText", VStr altText); ("contents", flex)];
     createTemplate := λ altText template _,
       VObj [("type", VStr "template"); ("altText", VStr altText);
             ("template", template)];
     createButtonTemplate := λ altText template _,
       VObj [("type", VStr "template"); ("altText", VStr altText);
             ("template", template)];
     createConfirmTemplate := λ altText template _,
       VObj [("type", VStr "template"); ("altText", VStr altText);
             ("template", template)];
     createCarouselTemplate := λ altText columns _,
       VObj [("type", VStr "template"); ("altText", VStr altText);
             ("columns", columns)];
     createImageCarouselTemplate := λ altText columns _,
       VObj [("type", VStr "template"); ("altText", VStr altText);
             ("columns", columns)] |}.

(** ** Vocabulary of the statements *)

(** The state one request later: the observer has seen [req] and the
    network has given its next answer. *)
Definition after (st : State) (req : Request) : State :=
  {| this := this st;
     network := tail (network st);
     sent := sent st ++ [(_onRequest (this st), req)] |}.

(** The next answer of the network. *)
Definition answer (st : State) : Completion AxiosResponse :=
  match network st with
  | [] => Pending
  | s :: _ => settle s
  end.

(** Between [st] and [st'] exactly one request was issued, with this
    method, path and body. *)
Definition issues_one (st st' : State) (method url : string) (body : Payload)
  : Prop :=
  ∃ req, st' = after st req
         ∧ req_method req = method ∧ req_url req = url ∧ req_body req = body.

(** A computation that leaves the instance as it found it. *)
Definition preserves_this {A : Type} (p : Promise A) : Prop :=
  ∀ st, this (p st).2 = this st.

(** The data of a response is a page: destructuring it gives the array
    [page.1] as [memberIds] and [page.2] as [next] ([VUndefined] when
    the page has no [next]). *)
Definition is_page (res : AxiosResponse) (page : list Value * Value) : Prop :=
  destructure_page (res_data res) = Return (VArr page.1, page.2).

(** The cursors of the requests that fetch [pages] one after the other,
    the first of them being made with [token]: each further request
    carries the [next] of the page before it. *)
Fixpoint cursors (token : Value) (pages : list (list Value * Value))
  : list Value :=
  match pages with
  | [] => []
  | page :: pages => token :: cursors page.2 pages
  end.

(** The cursor left once [pages] have been fetched. *)
Fixpoint next_cursor (token : Value) (pages : list (list Value * Value))
  : Value :=
  match pages with
  | [] => token
  | page :: pages => next_cursor page.2 pages
  end.

(** A page fetcher: [then(res => res.data, handleError)] around a GET
    whose path depends on the cursor.  [getGroupMemberIds] and
    [getRoomMemberIds] are of this form. *)
Definition fetchPage (url : Value → string) (config : option AxiosRequestConfig)
    (token : Value) : Promise Payload :=
  then_ (axios_get (url token) config) res_data_ handleError.

(** The log entry of the request a page fetcher makes with [cursor]. *)
Definition pageRequest (client : LineClient) (url : Value → string)
    (config : option AxiosRequestConfig) (cursor : Value) : Fn * Request :=
  (_onRequest client, outgoing client "get" (url cursor) (JsonData VUndefined) config).

(** The [Authorization] header of a request. *)
Definition authorization (req : Request) : option string :=
  req_headers req !! "Authorization".

(** The credential the specification resolves for a call: the override
    when the options carry one, the instance's own otherwise. *)
Definition resolved (client : LineClient) (options : CallOptions) : string :=
  default (_accessToken client) (accessToken options).

(** The instance sends its own access token by default, as every
    instance does that [constructor] built. *)
Definition credentials_installed (client : LineClient) : Prop :=
  default_headers (_axios client) !! "Authorization"
  = Some ("Bearer " +:+ _accessToken client).

(** The two calls that build their headers with a spread. *)
Definition spreads (call : Call) : bool :=
  match call with
  | UploadRichMenuImage _ _ | DownloadRichMenuImage _ => true
  | _ => false
  end.

(** Every request a computation issues satisfies [P], and the instance
    stays [client]. *)
Definition sends_only {A : Type} (client : LineClient) (P : Request → Prop)
    (p : Promise A) : Prop :=
  ∀ st, this st = client →
    this (p st).2 = client
    ∧ ∃ new, sent (p st).2 = sent st ++ new ∧ Forall (λ entry, P entry.2) new.

(** The failure came with a response of status 404. *)
Definition is404 (response : option ErrorResponse) : bool :=
  match response with
  | Some r => status r =? 404
  | None => false
  end.

(** The two calls that loop over pages. *)
Definition accumulates (call : Call) : bool :=
  match call with
  | GetAllGroupMemberIds _ | GetAllRoomMemberIds _ => true
  | _ => false
  end.

(** The call that sets its own [Content-Type]. *)
Definition uploads (call : Call) : bool :=
  match call with
  | UploadRichMenuImage _ _ => true
  | _ => false
  end.

(** The calls that hand on [res.data] as it is. *)
Definition passes_data_on (call : Call) : bool :=
  match call with
  | GetRichMenuList | GetLiffAppList | RetrieveMessageContent _
  | DownloadRichMenuImage _ | GetAllGroupMemberIds _ | GetAllRoomMemberIds _ => false
  | _ => true
  end.

(** Destructuring the data of a response gives [page.1] as [memberIds]
    and [page.2] as [next], whatever they are. *)
Definition destructures_to (res : AxiosResponse) (page : Value * Value) : Prop :=
  destructure_page (res_data res) = Return page.

(** The cursors of the requests that fetch [pages], as [cursors], for
    pages whose [memberIds] may be anything. *)
Fixpoint raw_cursors (token : Value) (pages : list (Value * Value)) : list Value :=
  match pages with
  | [] => []
  | page :: pages => token :: raw_cursors page.2 pages
  end.

Fixpoint raw_next_cursor (token : Value) (pages : list (Value * Value)) : Value :=
  match pages with
  | [] => token
  | page :: pages => raw_next_cursor page.2 pages
  end.

(** The query of a listing request: none for the first page, [?start=]
    and the cursor after. *)
Definition query (start : option string) : string :=
  match start with
  | Some token => "?start=" +:+ token
  | None => EmptyString
  end.

(** The [start] of each of the requests that fetch [pages] and the page
    after them: none for the first, then the [next] of the page
    before. *)
Definition starts (pages : list (list Value * string)) : list (option string) :=
  None :: map (λ page, Some page.2) pages.

(** A page whose [next] is the cursor [page.2], a string. *)
Definition is_page_with_cursor (res : AxiosResponse) (page : list Value * string)
  : Prop :=
  is_page res (page.1, VStr page.2).

(** * Properties *)

(** ** The error normaliser *)

Lemma append_assoc (a b c : string) : (a +:+ b) +:+ c = a +:+ b +:+ c.
Proof.
  induction a as [|x a IH]; [reflexivity|].
  change (String x ((a +:+ b) +:+ c) = String x (a +:+ b +:+ c)).
  now rewrite IH.
Qed.

(** Appending a detail to the first line of a block is putting its line
    second. *)
Lemma concat_append_detail (msg : string) (d : Detail) (lines : list string) :
  String.concat LF (append_detail msg d :: lines)
  = String.concat LF (msg :: detail_line d :: lines).
Proof.
  unfold append_detail, detail_line.
  destruct lines as [|l lines]; simpl.
  - reflexivity.
  - now rewrite !append_assoc.
Qed.

(** [forEach] leaves the lines joined by line feeds, in the order of the
    details. *)
Lemma forEach_append_detail (ds : list Detail) (msg : string) :
  fold_left append_detail ds msg = String.concat LF (msg :: map detail_line ds).
Proof.
  revert msg; induction ds as [|d ds IH]; intros msg.
  - reflexivity.
  - cbn [fold_left map]. now rewrite IH, concat_append_detail.
Qed.

(** [handleError] never returns: it throws an [AxiosError] built from
    the failure it was given. *)
Lemma handleError_throws {A : Type} (err : JsError) :
  ∃ msg, @handleError A err = Throw (AxiosError msg err).
Proof.
  unfold handleError.
  destruct (err_response err) as [[s [[m [ds|]]|]]|]; eauto.
Qed.

(** The error thrown does not depend on what the caller expected. *)
Lemma handleError_uniform (err : JsError) :
  ∃ text, ∀ A : Type, @handleError A err = Throw (AxiosError text err).
Proof.
  unfold handleError.
  destruct (err_response err) as [[s [[m [ds|]]|]]|]; eauto.
Qed.

(** C5: a failure whose response body has a message and a non-empty list
    of details is raised as an [AxiosError] whose message is the line
    ["LINE API - <message>"] followed by one line ["- <property>:
    <message>"] per detail, in the order of the details, the lines being
    separated by line feeds; the error carries the failure. *)
Theorem handleError_formats_details
    (A : Type) (err : JsError) (code : Z) (top : string) (ds : list Detail) :
  err_response err
    = Some {| status := code; data := Some {| message := top; details := Some ds |} |} →
  ds ≠ [] →
  @handleError A err
  = Throw (AxiosError
             (String.concat LF (("LINE API - " +:+ top) :: map detail_line ds))
             err).
Proof.
  intros Hresponse Hds. unfold handleError. rewrite Hresponse.
  destruct ds as [|d ds]; [congruence|].
  replace (0 <? Z.of_nat (length (d :: ds))) with true
    by (symmetry; apply Z.ltb_lt; simpl; lia).
  now rewrite forEach_append_detail.
Qed.

(** C6: a failure without a response, or whose response has no body, is
    raised as an [AxiosError] with the failure's own message, carrying
    the failure; and whatever the failure, [handleError] throws and does
    not return. *)
Theorem handleError_transport_failure (A : Type) (err : JsError) :
  (err_response err = None
   ∨ (∃ code, err_response err = Some {| status := code; data := None |})) →
  @handleError A err = Throw (AxiosError (err_message err) err)
  ∧ (∀ a : A, @handleError A err ≠ Return a)
  ∧ @handleError A err ≠ Pending.
Proof.
  intros Hbody.
  assert (Hthrow : @handleError A err = Throw (AxiosError (err_message err) err)).
  { unfold handleError. destruct Hbody as [-> | [code ->]]; reflexivity. }
  rewrite Hthrow. repeat split; [intros a|]; discriminate.
Qed.

(** ** Requests and handlers *)

Lemma request_run (method url : string) (body : Payload)
    (config : option AxiosRequestConfig) (st : State) :
  request method url body config st
  = (answer st, after st (outgoing (this st) method url body config)).
Proof.
  unfold request, answer, after. destruct (network st); reflexivity.
Qed.

Lemma then_run {A B : Type} (p : Promise A) (f : A → Completion B)
    (g : JsError → Completion B) (st : State) :
  (then_ p f g st).2 = (p st).2.
Proof. unfold then_. destruct (p st) as [[a|e|] st']; reflexivity. Qed.

Lemma catch_run {A : Type} (p : Promise A) (g : JsError → Completion A)
    (st : State) :
  (catch p g st).2 = (p st).2.
Proof. apply then_run. Qed.

Lemma preserves_request method url body config :
  preserves_this (request method url body config).
Proof. intros st. now rewrite request_run. Qed.

Lemma preserves_then {A B : Type} (p : Promise A) f (g : JsError → Completion B) :
  preserves_this p → preserves_this (then_ p f g).
Proof. intros Hp st. rewrite then_run. apply Hp. Qed.

Lemma preserves_catch {A : Type} (p : Promise A) g :
  preserves_this p → preserves_this (catch p g).
Proof. apply preserves_then. Qed.

Lemma preserves_throw {A : Type} (e : JsError) : preserves_this (@throw A e).
Proof. intros st. reflexivity. Qed.

Lemma preserves_loop (fetch : Value → Promise Payload) :
  (∀ token, preserves_this (fetch token)) →
  ∀ fuel all token st result,
    getAllMemberIds_loop fuel fetch all token st = Some result →
    this result.2 = this st.
Proof.
  intros Hfetch. induction fuel as [|fuel IH]; intros all token st result; simpl.
  - discriminate.
  - specialize (Hfetch token st).
    destruct (fetch token st) as [[page|e|] st']; simpl in Hfetch;
      [|intros [= <-]; assumption..].
    destruct (destructure_page page) as [[memberIds next]|e|];
      [|intros [= <-]; assumption..].
    destruct (truthy next).
    + intros Hloop. apply IH in Hloop. congruence.
    + intros [= <-]. assumption.
Qed.

Lemma preserves_getAllMemberIds (fetch : Value → Promise Payload) :
  (∀ token, preserves_this (fetch token)) →
  preserves_this (getAllMemberIds fetch).
Proof.
  intros Hfetch st. unfold getAllMemberIds.
  destruct (getAllMemberIds_loop _ _ _ _ _) as [result|] eqn:Hloop.
  - eapply preserves_loop; eassumption.
  - reflexivity.
Qed.

Create HintDb preserves.

#[local] Hint Resolve preserves_request preserves_then preserves_catch
  preserves_throw preserves_getAllMemberIds : preserves.

(** Every endpoint is a request of the instance with handlers around
    it. *)
Ltac unfold_endpoints :=
  unfold asArray, _send, reply, push, multicast, replyRawBody, pushRawBody,
    multicastRawBody, retrieveMessageContent, getUserProfile,
    getGroupMemberProfile, getRoomMemberProfile, getAllGroupMemberIds,
    getAllRoomMemberIds, getGroupMemberIds, getRoomMemberIds, leaveGroup,
    leaveRoom, getRichMenuList, getRichMenu, createRichMenu, deleteRichMenu,
    getLinkedRichMenu, linkRichMenu, unlinkRichMenu, getDefaultRichMenu,
    setDefaultRichMenu, deleteDefaultRichMenu, uploadRichMenuImage,
    downloadRichMenuImage, issueLinkToken, getLiffAppList, createLiffApp,
    updateLiffApp, deleteLiffApp, axios_get, axios_post, axios_put,
    axios_delete.

(** C9: no operation, whatever its arguments, its options (a credential
    override among them) and whatever the network answers, changes the
    instance: the stored access token, the channel secret, the observer
    and the axios instance with its base URL and default headers are
    after the call what they were before it. *)
Theorem perform_preserves_this (call : Call) (options : CallOptions) (st : State) :
  this (perform call options st).2 = this st.
Proof.
  revert st. change (preserves_this (perform call options)).
  destruct call; cbn [perform]; unfold_endpoints;
    repeat match goal with
           | |- context [if ?b then _ else _] => destruct b
           | |- context [match invariant ?c ?m with _ => _ end] =>
               destruct (invariant c m)
           end;
    auto 10 with preserves.
Qed.

(** ** Not found *)

(** C7: when the network answers the first request of a call with
    status 404, the call returns [null] if it is one of [getUserProfile],
    [getRichMenu], [getLinkedRichMenu], [getDefaultRichMenu] and
    [downloadRichMenuImage], and otherwise (the listings of member ids
    and the mutations among the rest) throws the error [handleError]
    makes of the failure, an [AxiosError] carrying it. *)
Theorem not_found_null_exactly_for_lookups
    (call : Call) (options : CallOptions) (st : State)
    (msg : string) (body : option ErrorBody) (rest : list Settled) :
  let failure := RequestError msg (Some {| status := 404; data := body |}) in
  network st = Rejected msg (Some {| status := 404; data := body |}) :: rest →
  preflight call = true →
  (perform call options st).1
  = (if softened call then Return (JsonData VNull) else handleError failure)
  ∧ (softened call = false →
     ∃ text, (perform call options st).1 = Throw (AxiosError text failure)).
Proof.
  intros failure Hnetwork Hpreflight.
  assert (Hresult : (perform call options st).1
    = (if softened call then Return (JsonData VNull) else handleError failure)).
  { destruct st as [client net log]; simpl in Hnetwork; subst net.
    destruct call; cbn [perform softened]; unfold_endpoints;
      try reflexivity;
      (* where the wrapped error is looked at again: [getUserProfile]
         and the two accumulations *)
      try (destruct body as [[top [[|d ds]|]]|]; reflexivity).
    - destruct (String.eqb type "push"); [reflexivity|].
      destruct (String.eqb type "multicast"); reflexivity.
    - simpl in Hpreflight. unfold accepted in Hpreflight.
      rewrite Hpreflight. reflexivity. }
  split; [exact Hresult|].
  intros Hhard.
  destruct (handleError_throws (A := Payload) failure) as [text Htext].
  exists text. now rewrite Hresult, Hhard.
Qed.

(** ** The dispatcher *)

Lemma rawBody_issues_one (url : string) (body : Value) (options : CallOptions)
    (st : State) :
  issues_one st
    (then_
       (axios_post url (JsonData body) (authorizationConfig (accessToken options)))
       res_data_ handleError st).2
    "post" url (JsonData body).
Proof.
  rewrite then_run. unfold axios_post. rewrite request_run.
  eexists. split; [reflexivity|]. repeat split.
Qed.

(** C1: for each of the three modes [_send] issues exactly one request,
    a POST to the path of the mode, whose body is [{replyToken,
    messages}] for [reply] and [{to, messages}] for [push] and
    [multicast], with the target and the message list as they were
    given. *)
Theorem _send_issues_one_post
    (target : Value) (messages : list Value) (options : CallOptions) (st : State) :
  issues_one st (_send "reply" target messages options st).2
    "post" "/v2/bot/message/reply"
    (JsonData (VObj [("replyToken", target); ("messages", VArr messages)]))
  ∧ issues_one st (_send "push" target messages options st).2
      "post" "/v2/bot/message/push"
      (JsonData (VObj [("to", target); ("messages", VArr messages)]))
  ∧ issues_one st (_send "multicast" target messages options st).2
      "post" "/v2/bot/message/multicast"
      (JsonData (VObj [("to", target); ("messages", VArr messages)])).
Proof.
  repeat split; apply rawBody_issues_one.
Qed.

(** C10: a mode tag that is neither ["push"] nor ["multicast"], whatever
    else it is, makes [_send] do what [reply] does: the target goes out
    as [replyToken] in one POST to [/v2/bot/message/reply]. *)
Theorem _send_falls_through_to_reply
    (type : string) (target : Value) (messages : list Value)
    (options : CallOptions) :
  type ≠ "push" → type ≠ "multicast" →
  _send type target messages options = reply target messages options
  ∧ ∀ st, issues_one st (_send type target messages options st).2
            "post" "/v2/bot/message/reply"
            (JsonData (VObj [("replyToken", target); ("messages", VArr messages)])).
Proof.
  intros Hpush Hmulticast.
  assert (Hsend : _send type target messages options
                  = reply target messages options).
  { unfold _send.
    apply String.eqb_neq in Hpush as ->.
    now apply String.eqb_neq in Hmulticast as ->. }
  split; [exact Hsend|].
  intros st. rewrite Hsend. apply rawBody_issues_one.
Qed.

(** ** The check before an upload *)

Lemma spreadAuthorization_content_type (customAccessToken : option string) :
  spreadAuthorization customAccessToken !! "Content-Type" = None.
Proof.
  unfold spreadAuthorization.
  destruct customAccessToken as [token|]; [|reflexivity].
  destruct (String.eqb token EmptyString); reflexivity.
Qed.

(** C8: when [imageType] detects nothing, or a type that is neither
    [image/jpeg] nor [image/png], [uploadRichMenuImage] throws the
    violation and the state is untouched: nothing was sent.  When it
    detects one of the two, exactly one request goes out, a POST to
    [/v2/bot/richmenu/<richMenuId>/content] with the image as body and
    the detected type as [Content-Type]. *)
Theorem uploadRichMenuImage_preflight
    (richMenuId : string) (image : Buffer) (options : CallOptions) (st : State) :
  ((imageType image = None
    ∨ ∃ t, imageType image = Some t
           ∧ mime t ≠ "image/jpeg" ∧ mime t ≠ "image/png") →
   uploadRichMenuImage richMenuId image options st
   = (Throw (InvariantViolation "Image must be `image/jpeg` or `image/png`"), st))
  ∧ (∀ t, imageType image = Some t →
          mime t = "image/jpeg" ∨ mime t = "image/png" →
          ∃ req,
            (uploadRichMenuImage richMenuId image options st).2 = after st req
            ∧ req_method req = "post"
            ∧ req_url req = "/v2/bot/richmenu/" +:+ richMenuId +:+ "/content"
            ∧ req_body req = BinaryData image
            ∧ req_headers req !! "Content-Type" = Some (mime t)).
Proof.
  split.
  - intros Hrejected. unfold uploadRichMenuImage.
    destruct Hrejected as [-> | (t & -> & Hjpeg & Hpng)]; [reflexivity|].
    apply String.eqb_neq in Hjpeg as ->. apply String.eqb_neq in Hpng as ->.
    reflexivity.
  - intros t Htype Hmime. unfold uploadRichMenuImage. rewrite Htype.
    replace (String.eqb (mime t) "image/jpeg" || String.eqb (mime t) "image/png")
      with true
      by (destruct Hmime as [-> | ->]; reflexivity).
    cbn [invariant]. rewrite then_run. unfold axios_post. rewrite request_run.
    eexists. split; [reflexivity|]. repeat split.
    cbn [outgoing req_headers headers from_option].
    rewrite <- (assoc_L (∪)), lookup_union_r
      by apply spreadAuthorization_content_type.
    now rewrite lookup_union_l', lookup_singleton_eq
      by (rewrite lookup_singleton_eq; eauto).
Qed.

(** ** Accumulating pages *)

(** A loop that ended ends the same way with more fuel. *)
Lemma getAllMemberIds_loop_more_fuel (fetch : Value → Promise Payload)
    (fuel : nat) :
  ∀ (all : list Value) (token : Value) (st : State) result (more : nat),
    getAllMemberIds_loop fuel fetch all token st = Some result →
    getAllMemberIds_loop (fuel + more) fetch all token st = Some result.
Proof.
  induction fuel as [|fuel IH]; intros all token st result more; [discriminate|].
  cbn [getAllMemberIds_loop Nat.add].
  destruct (fetch token st) as [[page|e|] st']; [|trivial..].
  destruct (destructure_page page) as [[memberIds next]|e|]; [|trivial..].
  destruct (truthy next); [apply IH | trivial].
Qed.

Section Pages.

Variable url : Value → string.
Variable config : option AxiosRequestConfig.

Lemma fetchPage_run (token : Value) (st : State) :
  fetchPage url config token st
  = (match answer st with
     | Return res => Return (res_data res)
     | Throw e => handleError e
     | Pending => Pending
     end,
     after st (outgoing (this st) "get" (url token) (JsonData VUndefined) config)).
Proof.
  unfold fetchPage, then_, axios_get. rewrite request_run.
  destruct (answer st); reflexivity.
Qed.

(** As long as the pages carry a [next] that is truthy the loop goes
    round: one request per page with the cursor of the page before, the
    ids appended in the order they came. *)
Lemma loop_pages (responses : list AxiosResponse)
    (pages : list (list Value * Value)) :
  Forall2 is_page responses pages →
  Forall (λ page, truthy page.2 = true) pages →
  ∀ (fuel : nat) (all : list Value) (token : Value) (st : State)
    (coming : list Settled),
    network st = map Fulfilled responses ++ coming →
    getAllMemberIds_loop (length responses + fuel) (fetchPage url config) all token st
    = getAllMemberIds_loop fuel (fetchPage url config)
        (all ++ mjoin (map fst pages)) (next_cursor token pages)
        {| this := this st;
           network := coming;
           sent := sent st ++ map (pageRequest (this st) url config) (cursors token pages) |}.
Proof.
  induction 1 as [|res [ids next] responses pages Hpage _ IH];
    intros Htruthy fuel all token st coming Hnetwork.
  - cbn in *. rewrite !app_nil_r. destruct st; cbn in *; now subst.
  - apply Forall_cons in Htruthy as [Hnext Htruthy]. cbn in Hnext.
    cbn [length Nat.add getAllMemberIds_loop].
    rewrite fetchPage_run. unfold answer. rewrite Hnetwork. cbn [map app settle].
    unfold is_page in Hpage. rewrite Hpage. cbn [fst snd array_concat].
    rewrite Hnext.
    rewrite (IH Htruthy fuel _ _ _ coming) by (cbn; now rewrite Hnetwork).
    cbn [after this sent map mjoin cursors next_cursor fst snd].
    unfold pageRequest at 3. now rewrite <- !app_assoc.
Qed.

Lemma cursors_app (token : Value) (pages : list (list Value * Value))
    (page : list Value * Value) :
  cursors token (pages ++ [page]) = cursors token pages ++ [next_cursor token pages].
Proof.
  revert token; induction pages as [|p pages IH]; intros token; cbn.
  - reflexivity.
  - now rewrite IH.
Qed.

Lemma network_length (responses : list AxiosResponse) (s : Settled)
    (rest : list Settled) :
  S (length (map Fulfilled responses ++ s :: rest))
  = (length responses + S (S (length rest)))%nat.
Proof. rewrite length_app, length_map. cbn. lia. Qed.

(** The pages up to the first whose [next] is falsy: the loop returns
    their ids in order, having made one request per page. *)
Lemma getAllMemberIds_pages (st : State) (responses : list AxiosResponse)
    (pages : list (list Value * Value)) (final : AxiosResponse)
    (finalIds : list Value) (finalNext : Value) (rest : list Settled) :
  Forall2 is_page responses pages →
  Forall (λ page, truthy page.2 = true) pages →
  is_page final (finalIds, finalNext) →
  truthy finalNext = false →
  network st = map Fulfilled responses ++ Fulfilled final :: rest →
  getAllMemberIds (fetchPage url config) st
  = (Return (mjoin (map fst pages) ++ finalIds),
     {| this := this st;
        network := rest;
        sent := sent st ++ map (pageRequest (this st) url config)
                  (cursors VUndefined (pages ++ [(finalIds, finalNext)])) |}).
Proof.
  intros Hpages Htruthy Hfinal Hfalsy Hnetwork.
  unfold getAllMemberIds. rewrite Hnetwork, network_length.
  rewrite (loop_pages _ _ Hpages Htruthy _ _ _ _ _ Hnetwork).
  cbn [getAllMemberIds_loop]. rewrite fetchPage_run.
  unfold answer. cbn [network settle].
  unfold is_page in Hfinal. rewrite Hfinal. cbn [fst snd array_concat].
  rewrite Hfalsy, cursors_app, map_app.
  unfold after, pageRequest. cbn [this network sent tail map app].
  now rewrite <- app_assoc.
Qed.

(** A fetch that fails ends the loop with the error [handleError] makes
    of the failure. *)
Lemma getAllMemberIds_failure (st : State) (responses : list AxiosResponse)
    (pages : list (list Value * Value)) (msg : string)
    (response : option ErrorResponse) (rest : list Settled) :
  Forall2 is_page responses pages →
  Forall (λ page, truthy page.2 = true) pages →
  network st = map Fulfilled responses ++ Rejected msg response :: rest →
  getAllMemberIds (fetchPage url config) st
  = (handleError (RequestError msg response),
     {| this := this st;
        network := rest;
        sent := sent st ++ map (pageRequest (this st) url config)
                  (cursors VUndefined pages ++ [next_cursor VUndefined pages]) |}).
Proof.
  intros Hpages Htruthy Hnetwork.
  unfold getAllMemberIds. rewrite Hnetwork, network_length.
  rewrite (loop_pages _ _ Hpages Htruthy _ _ _ _ _ Hnetwork).
  cbn [getAllMemberIds_loop]. rewrite fetchPage_run.
  unfold answer. cbn [network settle].
  destruct (handleError_uniform (RequestError msg response)) as [text Htext].
  rewrite !Htext, map_app.
  unfold after, pageRequest. cbn [this network sent tail map app].
  now rewrite <- app_assoc.
Qed.

(** One round more than the network has answers is fuel enough. *)
Lemma getAllMemberIds_loop_fuel (fuel : nat) :
  ∀ (all : list Value) (token : Value) (st : State),
    (length (network st) < fuel)%nat →
    is_Some (getAllMemberIds_loop fuel (fetchPage url config) all token st).
Proof.
  induction fuel as [|fuel IH]; intros all token st Hfuel; [lia|].
  cbn [getAllMemberIds_loop]. rewrite fetchPage_run. unfold answer.
  destruct (network st) as [|[res|msg response] rest] eqn:Hnetwork; cbn [settle].
  - eauto.
  - destruct (destructure_page (res_data res)) as [[memberIds next]|e|]; eauto.
    destruct (truthy next); eauto.
    apply IH. cbn [after network]. rewrite Hnetwork. cbn in *. lia.
  - destruct (handleError_uniform (RequestError msg response)) as [text Htext].
    rewrite Htext. eauto.
Qed.

(** Whatever the pages look like, ids are returned only when every
    answer the loop took from the network was a response. *)
Lemma loop_returns_after_responses (fuel : nat) :
  ∀ (all : list Value) (token : Value) (st st' : State) (ids : list Value),
    getAllMemberIds_loop fuel (fetchPage url config) all token st
    = Some (Return ids, st') →
    ∃ responses, network st = map Fulfilled responses ++ network st'.
Proof.
  induction fuel as [|fuel IH]; intros all token st st' ids; [discriminate|].
  cbn [getAllMemberIds_loop]. rewrite fetchPage_run. unfold answer.
  destruct (network st) as [|[res|msg response] rest] eqn:Hnetwork; cbn [settle].
  - discriminate.
  - destruct (destructure_page (res_data res)) as [[memberIds next]|e|];
      [|discriminate..].
    destruct (truthy next).
    + intros Hloop. apply IH in Hloop as [responses Hrest].
      cbn [after network] in Hrest. rewrite Hnetwork in Hrest. cbn in Hrest.
      exists (res :: responses). cbn. now rewrite Hrest.
    + intros [= _ <-]. exists [res]. cbn. now rewrite Hnetwork.
  - destruct (handleError_uniform (RequestError msg response)) as [text Htext].
    rewrite Htext. discriminate.
Qed.

End Pages.

(** The paths of the two listings. *)
Lemma getGroupMemberIds_fetchPage (groupId : string) (options : CallOptions) :
  (λ token, getGroupMemberIds groupId token options)
  = fetchPage (λ start, "/v2/bot/group/" +:+ groupId +:+ "/members/ids" +:+ startQuery start)
      (authorizationConfig (accessToken options)).
Proof. reflexivity. Qed.

Lemma getRoomMemberIds_fetchPage (roomId : string) (options : CallOptions) :
  (λ token, getRoomMemberIds roomId token options)
  = fetchPage (λ start, "/v2/bot/room/" +:+ roomId +:+ "/members/ids" +:+ startQuery start)
      (authorizationConfig (accessToken options)).
Proof. reflexivity. Qed.

Lemma cursors_of_strings (token : Value) (pages : list (list Value * string))
    (final : list Value * Value) :
  cursors token (map (λ page, (page.1, VStr page.2)) pages ++ [final])
  = token :: map (λ page, VStr page.2) pages.
Proof.
  revert token; induction pages as [|page pages IH]; intros token; cbn.
  - reflexivity.
  - now rewrite IH.
Qed.

Lemma startQuery_of_string (token : string) :
  token ≠ EmptyString → startQuery (VStr token) = query (Some token).
Proof.
  intros Htoken. unfold startQuery. cbn [truthy toString query].
  now apply String.eqb_neq in Htoken as ->.
Qed.

(** The requests of an accumulation over pages with string cursors;
    [path] makes the path of the query. *)
Lemma pageRequests_of_strings (client : LineClient) (path : string → string)
    (config : option AxiosRequestConfig) (pages : list (list Value * string)) :
  Forall (λ page, page.2 ≠ EmptyString) pages →
  map (pageRequest client (λ start, path (startQuery start)) config)
    (VUndefined :: map (λ page, VStr page.2) pages)
  = map (λ start, (_onRequest client,
                   outgoing client "get" (path (query start))
                     (JsonData VUndefined) config))
      (starts pages).
Proof.
  intros Hpages. unfold starts. cbn [map]. f_equal.
  induction Hpages as [|page pages Hpage _ IH]; cbn [map]; [reflexivity|].
  rewrite IH. unfold pageRequest at 1. now rewrite startQuery_of_string.
Qed.

(** C3, as the code has it: [getAllGroupMemberIds], and in the same way
    [getAllRoomMemberIds], makes its first request without [start] and
    each further one with the [next] of the page before as [start]; it
    goes on while [next] is a string that is not empty and stops at the
    first page whose [next] is falsy: undefined or absent, and also
    [null] or the empty string.  It returns the ids of the pages in the
    order of the pages and, within a page, in the order of the page,
    having made one request per page. *)
Theorem getAllMemberIds_accumulates_until_falsy_next
    (id : string) (options : CallOptions) (st : State)
    (responses : list AxiosResponse) (pages : list (list Value * string))
    (final : AxiosResponse) (finalIds : list Value) (finalNext : Value)
    (rest : list Settled) :
  Forall2 is_page_with_cursor responses pages →
  Forall (λ page, page.2 ≠ EmptyString) pages →
  is_page final (finalIds, finalNext) →
  truthy finalNext = false →
  network st = map Fulfilled responses ++ Fulfilled final :: rest →
  let config := authorizationConfig (accessToken options) in
  getAllGroupMemberIds id options st
  = (Return (mjoin (map fst pages) ++ finalIds),
     {| this := this st;
        network := rest;
        sent := sent st ++
          map (λ start,
                 (_onRequest (this st),
                  outgoing (this st) "get"
                    ("/v2/bot/group/" +:+ id +:+ "/members/ids" +:+ query start)
                    (JsonData VUndefined) config))
              (starts pages) |})
  ∧ getAllRoomMemberIds id options st
    = (Return (mjoin (map fst pages) ++ finalIds),
       {| this := this st;
          network := rest;
          sent := sent st ++
            map (λ start,
                   (_onRequest (this st),
                    outgoing (this st) "get"
                      ("/v2/bot/room/" +:+ id +:+ "/members/ids" +:+ query start)
                      (JsonData VUndefined) config))
                (starts pages) |}).
Proof.
  intros Hpages Hcursors Hfinal Hfalsy Hnetwork config.
  pose (raw := map (λ page : list Value * string, (page.1, VStr page.2)) pages).
  assert (Hraw : Forall2 is_page responses raw).
  { unfold raw. clear -Hpages.
    induction Hpages as [|res page responses pages Hpage _ IH]; cbn;
      constructor; assumption. }
  assert (Htruthy : Forall (λ page : list Value * Value, truthy page.2 = true) raw).
  { unfold raw. clear -Hcursors.
    induction Hcursors as [|page pages Hpage _ IH]; cbn; constructor;
      [|assumption].
    cbn. now apply String.eqb_neq in Hpage as ->. }
  assert (Hids : mjoin (map fst raw) = mjoin (map fst pages)).
  { unfold raw. now rewrite map_map. }
  unfold getAllGroupMemberIds, getAllRoomMemberIds.
  rewrite getGroupMemberIds_fetchPage, getRoomMemberIds_fetchPage.
  split.
  - rewrite (getAllMemberIds_pages _ config st responses raw final finalIds
               finalNext rest Hraw Htruthy Hfinal Hfalsy Hnetwork).
    unfold raw at 2. rewrite cursors_of_strings, Hids.
    now rewrite <- (pageRequests_of_strings (this st)
                      (λ q, "/v2/bot/group/" +:+ id +:+ "/members/ids" +:+ q)
                      config pages Hcursors).
  - rewrite (getAllMemberIds_pages _ config st responses raw final finalIds
               finalNext rest Hraw Htruthy Hfinal Hfalsy Hnetwork).
    unfold raw at 2. rewrite cursors_of_strings, Hids.
    now rewrite <- (pageRequests_of_strings (this st)
                      (λ q, "/v2/bot/room/" +:+ id +:+ "/members/ids" +:+ q)
                      config pages Hcursors).
Qed.

(** C4: when a fetch fails, after any number of pages that asked for
    more, [getAllGroupMemberIds] and [getAllRoomMemberIds] end with the
    error [handleError] makes of that failure, an [AxiosError] carrying
    it; they return no ids, the ones gathered so far included. *)
Theorem getAllMemberIds_aborts_on_failure
    (id : string) (options : CallOptions) (st : State)
    (responses : list AxiosResponse) (pages : list (list Value * Value))
    (msg : string) (response : option ErrorResponse) (rest : list Settled) :
  Forall2 is_page responses pages →
  Forall (λ page, truthy page.2 = true) pages →
  network st = map Fulfilled responses ++ Rejected msg response :: rest →
  let failure := RequestError msg response in
  ((getAllGroupMemberIds id options st).1 = handleError failure
   ∧ (∃ text, (getAllGroupMemberIds id options st).1 = Throw (AxiosError text failure))
   ∧ (∀ ids, (getAllGroupMemberIds id options st).1 ≠ Return ids)
   ∧ network (getAllGroupMemberIds id options st).2 = rest)
  ∧ ((getAllRoomMemberIds id options st).1 = handleError failure
     ∧ (∃ text, (getAllRoomMemberIds id options st).1 = Throw (AxiosError text failure))
     ∧ (∀ ids, (getAllRoomMemberIds id options st).1 ≠ Return ids)
     ∧ network (getAllRoomMemberIds id options st).2 = rest).
Proof.
  intros Hpages Htruthy Hnetwork failure.
  unfold getAllGroupMemberIds, getAllRoomMemberIds.
  rewrite getGroupMemberIds_fetchPage, getRoomMemberIds_fetchPage.
  destruct (handleError_uniform failure) as [text Htext].
  split;
    rewrite (getAllMemberIds_failure _ _ _ _ _ _ _ _ Hpages Htruthy Hnetwork);
    cbn [fst snd network]; fold failure; rewrite Htext;
    (repeat split; [eauto | intros ids; discriminate]).
Qed.

(** ** Credentials *)

Lemma constructor_credentials (accessTokenOrConfig : string + ClientConfig)
    (channelSecret : option string) :
  credentials_installed (constructor accessTokenOrConfig channelSecret).
Proof. destruct accessTokenOrConfig as [token|[token secret origin observer]]; reflexivity. Qed.

Section Credentials.

Variable client : LineClient.
Hypothesis Hinstalled : credentials_installed client.

Lemma authorization_default (method url : string) (body : Payload) :
  authorization (outgoing client method url body None)
  = Some ("Bearer " +:+ _accessToken client).
Proof. exact Hinstalled. Qed.

Lemma authorization_override (method url : string) (body : Payload)
    (kind : option string) (token : string) :
  authorization
    (outgoing client method url body
       (Some {| responseType := kind;
                headers := {[ "Authorization" := "Bearer " +:+ token ]} |}))
  = Some ("Bearer " +:+ token).
Proof.
  unfold authorization, outgoing. cbn [req_headers headers].
  apply lookup_union_Some_l, lookup_singleton_eq.
Qed.

(** The usual config: the override when there is one, the default
    otherwise; an empty override is an override. *)
Lemma authorization_config (method url : string) (body : Payload)
    (options : CallOptions) :
  authorization
    (outgoing client method url body (authorizationConfig (accessToken options)))
  = Some ("Bearer " +:+ resolved client options).
Proof.
  unfold resolved, authorizationConfig.
  destruct (accessToken options) as [token|]; cbn [default].
  - apply authorization_override.
  - apply authorization_default.
Qed.

(** The spread: an override that is not empty wins ... *)
Lemma authorization_spread (method url : string) (body : Payload)
    (kind : option string) (extra : gmap string string) (options : CallOptions) :
  accessToken options ≠ Some EmptyString →
  extra !! "Authorization" = None →
  authorization
    (outgoing client method url body
       (Some {| responseType := kind;
                headers := spreadAuthorization (accessToken options) ∪ extra |}))
  = Some ("Bearer " +:+ resolved client options).
Proof.
  intros Hnonempty Hextra.
  unfold authorization, outgoing, resolved, spreadAuthorization.
  cbn [req_headers headers].
  destruct (accessToken options) as [token|]; cbn [default].
  - destruct (String.eqb_spec token EmptyString) as [->|_]; [congruence|].
    rewrite <- (assoc_L (∪)). apply lookup_union_Some_l, lookup_singleton_eq.
  - rewrite (left_id_L ∅ (∪)), lookup_union_r by exact Hextra. exact Hinstalled.
Qed.

(** ... and an empty one is dropped, which leaves the default. *)
Lemma authorization_spread_empty (method url : string) (body : Payload)
    (kind : option string) (extra : gmap string string) :
  extra !! "Authorization" = None →
  authorization
    (outgoing client method url body
       (Some {| responseType := kind;
                headers := spreadAuthorization (Some EmptyString) ∪ extra |}))
  = Some ("Bearer " +:+ _accessToken client).
Proof.
  intros Hextra. unfold authorization, outgoing. cbn [req_headers headers spreadAuthorization String.eqb].
  rewrite (left_id_L ∅ (∪)), lookup_union_r by exact Hextra. exact Hinstalled.
Qed.

End Credentials.

Section Sending.

Context {A : Type} (client : LineClient) (P : Request → Prop).

Lemma sends_only_request method url body config :
  P (outgoing client method url body config) →
  sends_only client P (request method url body config).
Proof.
  intros HP st <-. rewrite request_run. split; [reflexivity|].
  eexists. split; [reflexivity|]. now constructor.
Qed.

Lemma sends_only_then {B : Type} (p : Promise B) (f : B → Completion A)
    (g : JsError → Completion A) :
  sends_only client P p → sends_only client P (then_ p f g).
Proof. intros Hp st Hst. rewrite then_run. now apply Hp. Qed.

Lemma sends_only_catch (p : Promise A) (g : JsError → Completion A) :
  sends_only client P p → sends_only client P (catch p g).
Proof. apply sends_only_then. Qed.

Lemma sends_only_throw (e : JsError) : sends_only client P (@throw A e).
Proof.
  intros st Hst. split; [exact Hst|].
  exists []. split; [now rewrite app_nil_r | constructor].
Qed.

End Sending.

Lemma sends_only_loop (client : LineClient) (P : Request → Prop)
    (fetch : Value → Promise Payload) :
  (∀ token, sends_only client P (fetch token)) →
  ∀ fuel all token st result,
    this st = client →
    getAllMemberIds_loop fuel fetch all token st = Some result →
    this result.2 = client
    ∧ ∃ new, sent result.2 = sent st ++ new ∧ Forall (λ entry, P entry.2) new.
Proof.
  intros Hfetch. induction fuel as [|fuel IH]; intros all token st result Hst;
    cbn [getAllMemberIds_loop]; [discriminate|].
  destruct (Hfetch token st Hst) as [Hthis Hsent].
  destruct (fetch token st) as [[page|e|] st']; cbn [snd] in Hthis, Hsent;
    [|intros [= <-]; split; assumption..].
  destruct (destructure_page page) as [[memberIds next]|e|];
    [|intros [= <-]; split; assumption..].
  destruct (truthy next); [|intros [= <-]; split; assumption].
  intros Hloop. apply IH in Hloop as [Hthis' (later & Hlater & HP)]; [|exact Hthis].
  split; [exact Hthis'|].
  destruct Hsent as (new & Hnew & HPnew).
  exists (new ++ later). split.
  - now rewrite Hlater, Hnew, app_assoc.
  - now apply Forall_app.
Qed.

Lemma sends_only_getAllMemberIds (client : LineClient) (P : Request → Prop)
    (fetch : Value → Promise Payload) :
  (∀ token, sends_only client P (fetch token)) →
  sends_only client P (getAllMemberIds fetch).
Proof.
  intros Hfetch st Hst. unfold getAllMemberIds.
  destruct (getAllMemberIds_loop _ _ _ _ _) as [result|] eqn:Hloop.
  - eapply sends_only_loop; eassumption.
  - split; [exact Hst|]. exists []. split; [now rewrite app_nil_r | constructor].
Qed.

Create HintDb sends.

#[local] Hint Resolve sends_only_request sends_only_then sends_only_catch
  sends_only_throw sends_only_getAllMemberIds authorization_config
  authorization_override : sends.

(** Where the override does what the specification says: every request
    of every call carries the resolved credential, an empty override
    included, except that the two calls that spread their headers need
    the override not to be empty. *)
Lemma override_reaches_every_request
    (call : Call) (options : CallOptions) (client : LineClient) :
  credentials_installed client →
  (spreads call = true → accessToken options ≠ Some EmptyString) →
  sends_only client
    (λ req, authorization req = Some ("Bearer " +:+ resolved client options))
    (perform call options).
Proof.
  intros Hinstalled Hspread.
  destruct call; cbn [perform spreads] in *; unfold_endpoints;
    repeat match goal with
           | |- context [if ?b then _ else _] => destruct b
           | |- context [match invariant ?c ?m with _ => _ end] =>
               destruct (invariant c m)
           end;
    auto 10 with sends.
  - (* [retrieveMessageContent] writes its config out *)
    apply sends_only_then, sends_only_request. unfold resolved.
    destruct (accessToken options) as [token|]; cbn [default].
    + now apply authorization_override.
    + now apply authorization_default.
  - apply sends_only_then, sends_only_request.
    apply authorization_spread; auto.
  - apply sends_only_catch, sends_only_then, sends_only_request.
    rewrite <- (right_id_L ∅ (∪) (spreadAuthorization _)).
    apply authorization_spread; auto.
Qed.

(** C2, where the code departs from it: with the empty string as
    override, [uploadRichMenuImage] and [downloadRichMenuImage] send the
    instance's own token, not the override.  ([customAccessToken && ...]
    drops an empty string; the other endpoints compare with
    [undefined].) *)
Theorem empty_override_dropped_by_rich_menu_image_calls
    (richMenuId : string) (image : Buffer) (t : ImageType) (st : State) :
  credentials_installed (this st) →
  imageType image = Some t →
  mime t = "image/jpeg" ∨ mime t = "image/png" →
  let options := {| accessToken := Some EmptyString |} in
  (∃ req, (uploadRichMenuImage richMenuId image options st).2 = after st req
          ∧ authorization req = Some ("Bearer " +:+ _accessToken (this st)))
  ∧ (∃ req, (downloadRichMenuImage richMenuId options st).2 = after st req
            ∧ authorization req = Some ("Bearer " +:+ _accessToken (this st))).
Proof.
  intros Hinstalled Htype Hmime options. split.
  - unfold uploadRichMenuImage. rewrite Htype.
    replace (String.eqb (mime t) "image/jpeg" || String.eqb (mime t) "image/png")
      with true
      by (destruct Hmime as [-> | ->]; reflexivity).
    cbn [invariant]. rewrite then_run. unfold axios_post. rewrite request_run.
    eexists. split; [reflexivity|].
    now apply authorization_spread_empty.
  - unfold downloadRichMenuImage. rewrite catch_run, then_run.
    unfold axios_get. rewrite request_run.
    eexists. split; [reflexivity|].
    cbn [options accessToken].
    rewrite <- (right_id_L ∅ (∪) (spreadAuthorization _)).
    now apply authorization_spread_empty.
Qed.

(** ** What a failure becomes *)

(** Apart from [getUserProfile], a call whose first request fails ends
    in [null] when it is one of the lookups that soften and the failure
    is a response of status 404, and in the error of [handleError]
    otherwise: a softening lookup raises every failure that is not a
    404, one without response included. *)
Theorem failure_is_raised_unless_softened_404
    (call : Call) (options : CallOptions) (st : State)
    (msg : string) (response : option ErrorResponse) (rest : list Settled) :
  network st = Rejected msg response :: rest →
  preflight call = true →
  (∀ userId, call ≠ GetUserProfile userId) →
  (perform call options st).1
  = if softened call && is404 response then Return (JsonData VNull)
    else handleError (RequestError msg response).
Proof.
  intros Hnetwork Hpreflight Hother.
  destruct st as [client net log]; simpl in Hnetwork; subst net.
  destruct call; cbn [perform softened andb]; unfold_endpoints;
    try reflexivity;
    try (destruct response as [[code [[top [[|d ds]|]]|]]|]; cbn [is404 status];
         try destruct (code =? 404) eqn:Hcode;
         cbn; unfold nullOn404; cbn; rewrite ?Hcode; reflexivity).
  - destruct (String.eqb type "push"); [reflexivity|].
    destruct (String.eqb type "multicast"); reflexivity.
  - now contradiction (Hother userId).
  - simpl in Hpreflight. unfold accepted in Hpreflight.
    rewrite Hpreflight. reflexivity.
Qed.

(** [getUserProfile] hands the failure to [handleError] twice, in
    [.then] and again in [.catch]: what it throws for a failure that is
    not a 404 is the error of [handleError] around the error of
    [handleError], with the same message. *)
Theorem getUserProfile_wraps_twice
    (userId : string) (options : CallOptions) (st : State)
    (msg : string) (response : option ErrorResponse) (rest : list Settled) :
  network st = Rejected msg response :: rest →
  is404 response = false →
  ∃ text,
    @handleError Payload (RequestError msg response)
    = Throw (AxiosError text (RequestError msg response))
    ∧ (getUserProfile userId options st).1
      = Throw (AxiosError text (AxiosError text (RequestError msg response))).
Proof.
  intros Hnetwork Hother.
  destruct st as [client net log]; simpl in Hnetwork; subst net.
  unfold getUserProfile, catch, then_, axios_get, request. cbn.
  destruct response as [[code [[top [[|d ds]|]]|]]|]; cbn in Hother |- *;
    unfold nullOn404; cbn; rewrite ?Hother; cbn; eauto.
Qed.

(** Normalising twice: the error [handleError] throws still shows the
    response of the failure, and [handleError] applied to it throws an
    error with the same message. *)
Theorem handleError_twice (A : Type) (err : JsError) :
  ∃ text,
    @handleError A err = Throw (AxiosError text err)
    ∧ err_response (AxiosError text err) = err_response err
    ∧ @handleError A (AxiosError text err)
      = Throw (AxiosError text (AxiosError text err)).
Proof.
  unfold handleError. cbn [err_response err_message].
  destruct (err_response err) as [[code [[top [ds|]]|]]|]; eauto.
Qed.

(** Without details, or with an empty list of them, the message is the
    first line alone. *)
Theorem handleError_without_details
    (A : Type) (err : JsError) (code : Z) (top : string)
    (ds : option (list Detail)) :
  err_response err
    = Some {| status := code; data := Some {| message := top; details := ds |} |} →
  ds = None ∨ ds = Some [] →
  @handleError A err = Throw (AxiosError ("LINE API - " +:+ top) err).
Proof.
  intros Hresponse Hds. unfold handleError. rewrite Hresponse.
  destruct Hds as [-> | ->]; reflexivity.
Qed.

(** ** One call, one request *)

(** Every call but the two accumulations issues one request and no
    more, whatever the answer (nothing is retried), and none at all when
    the image of an upload is refused. *)
Theorem one_request_per_call (call : Call) (options : CallOptions) (st : State) :
  accumulates call = false →
  ∃ req, (perform call options st).2 = if preflight call then after st req else st.
Proof.
  intros Hplain.
  destruct call; try discriminate Hplain; cbn [perform preflight];
    unfold_endpoints;
    repeat match goal with
           | |- context [if String.eqb ?a ?b then _ else _] => destruct (String.eqb a b)
           end;
    rewrite ?catch_run, ?then_run, ?request_run; eauto.
  unfold accepted.
  pose (none := outgoing (this st) EmptyString EmptyString (JsonData VNull) None).
  destruct (imageType image) as [t|]; cbn [invariant];
    [destruct (String.eqb (mime t) "image/jpeg" || String.eqb (mime t) "image/png");
     cbn [invariant]|].
  - rewrite then_run, request_run. eauto.
  - now exists none.
  - now exists none.
Qed.

(** ** What an override leaves alone *)

Lemma spreadAuthorization_other (customAccessToken : option string) (k : string) :
  k ≠ "Authorization" → spreadAuthorization customAccessToken !! k = None.
Proof.
  intros Hk. unfold spreadAuthorization.
  destruct customAccessToken as [token|]; [|apply lookup_empty].
  destruct (String.eqb token EmptyString); [apply lookup_empty|].
  now apply lookup_singleton_ne.
Qed.

Lemma outgoing_header_kept (client : LineClient) (method url : string)
    (body : Payload) (config : option AxiosRequestConfig) (k : string) :
  (∀ c, config = Some c → headers c !! k = None) →
  req_headers (outgoing client method url body config) !! k
  = default_headers (_axios client) !! k.
Proof.
  intros Hconfig. unfold outgoing. cbn [req_headers].
  destruct config as [c|]; [|reflexivity].
  apply lookup_union_r. now apply Hconfig.
Qed.

Lemma authorizationConfig_other (customAccessToken : option string) (k : string) :
  k ≠ "Authorization" →
  ∀ c, authorizationConfig customAccessToken = Some c → headers c !! k = None.
Proof.
  intros Hk c. unfold authorizationConfig.
  destruct customAccessToken as [token|]; [|discriminate].
  intros [= <-]. now apply lookup_singleton_ne.
Qed.

(** Every request of every call goes to the base URL of the instance,
    and with the headers of the instance except [Authorization], which
    the override may replace, and, for [uploadRichMenuImage] only,
    [Content-Type]. *)
Theorem override_touches_only_authorization
    (call : Call) (options : CallOptions) (client : LineClient) :
  sends_only client
    (λ req,
       req_baseURL req = baseURL (_axios client)
       ∧ ∀ k, k ≠ "Authorization" →
              (k = "Content-Type" → uploads call = false) →
              req_headers req !! k = default_headers (_axios client) !! k)
    (perform call options).
Proof.
  assert (Husual : ∀ method url body,
            req_baseURL (outgoing client method url body
                           (authorizationConfig (accessToken options)))
            = baseURL (_axios client)
            ∧ ∀ k, k ≠ "Authorization" →
                   (k = "Content-Type" → uploads call = false) →
                   req_headers (outgoing client method url body
                                  (authorizationConfig (accessToken options))) !! k
                   = default_headers (_axios client) !! k).
  { intros method url body. split; [reflexivity|]. intros k Hk _.
    apply outgoing_header_kept. now apply authorizationConfig_other. }
  destruct call; cbn [perform uploads] in *; unfold_endpoints;
    repeat match goal with
           | |- context [if ?b then _ else _] => destruct b
           | |- context [match invariant ?c ?m with _ => _ end] =>
               destruct (invariant c m)
           end;
    auto 10 using sends_only_request, sends_only_then, sends_only_catch,
      sends_only_throw, sends_only_getAllMemberIds.
  - apply sends_only_then, sends_only_request. split; [reflexivity|].
    intros k Hk _. apply outgoing_header_kept.
    destruct (accessToken options) as [token|]; intros c [= <-].
    now apply lookup_singleton_ne.
  - apply sends_only_then, sends_only_request. split; [reflexivity|].
    intros k Hk Hcontent. apply outgoing_header_kept. intros c [= <-].
    cbn [headers]. apply lookup_union_None. split.
    + now apply spreadAuthorization_other.
    + apply lookup_singleton_ne. intros <-. now discriminate Hcontent.
  - apply sends_only_catch, sends_only_then, sends_only_request.
    split; [reflexivity|].
    intros k Hk _. apply outgoing_header_kept. intros c [= <-].
    now apply spreadAuthorization_other.
Qed.

(** ** What a response becomes *)

(** The calls that do nothing to the body return the data of the
    response as it came, whatever it is. *)
Theorem response_data_is_passed_on
    (call : Call) (options : CallOptions) (st : State)
    (res : AxiosResponse) (rest : list Settled) :
  network st = Fulfilled res :: rest →
  preflight call = true →
  passes_data_on call = true →
  (perform call options st).1 = Return (res_data res).
Proof.
  intros Hnetwork Hpreflight Hplain.
  destruct st as [client net log]; simpl in Hnetwork; subst net.
  destruct call; try discriminate Hplain; cbn [perform]; unfold_endpoints;
    try reflexivity.
  - destruct (String.eqb type "push"); [reflexivity|].
    destruct (String.eqb type "multicast"); reflexivity.
  - simpl in Hpreflight. unfold accepted in Hpreflight.
    rewrite Hpreflight. reflexivity.
Qed.

(** [getRichMenuList] and [getLiffAppList] return one property of the
    body: [undefined] when the body is an object without it, and when
    the body is [null] the [TypeError] of reading a property of [null],
    which does not pass through [handleError]. *)
Theorem list_calls_read_one_property
    (options : CallOptions) (st : State) (res : AxiosResponse)
    (rest : list Settled) :
  network st = Fulfilled res :: rest →
  (∀ fields, res_data res = JsonData (VObj fields) →
     (getRichMenuList options st).1 = Return (JsonData (assoc "richmenus" fields))
     ∧ (getLiffAppList options st).1 = Return (JsonData (assoc "apps" fields)))
  ∧ (res_data res = JsonData VNull →
     (getRichMenuList options st).1 = Throw (TypeError (cannotRead "richmenus" VNull))
     ∧ (getLiffAppList options st).1 = Throw (TypeError (cannotRead "apps" VNull))).
Proof.
  intros Hnetwork.
  destruct st as [client net log]; simpl in Hnetwork; subst net.
  unfold getRichMenuList, getLiffAppList, then_, axios_get, request,
    res_data_property. cbn.
  split; [intros fields Hdata | intros Hdata]; rewrite Hdata; split; reflexivity.
Qed.

(** When [Buffer.from] throws on the data of the response,
    [retrieveMessageContent] throws that error as it is, while
    [downloadRichMenuImage], whose [.catch] sees it, throws it wrapped
    by [handleError]. *)
Theorem Buffer_from_failure
    (messageId richMenuId : string) (options : CallOptions) (st : State)
    (res : AxiosResponse) (rest : list Settled) (e : JsError) :
  network st = Fulfilled res :: rest →
  Buffer_from (res_data res) = inl e →
  err_response e = None →
  (retrieveMessageContent messageId options st).1 = Throw e
  ∧ (downloadRichMenuImage richMenuId options st).1
    = Throw (AxiosError (err_message e) e).
Proof.
  intros Hnetwork Hbuffer Hresponse.
  destruct st as [client net log]; simpl in Hnetwork; subst net.
  unfold retrieveMessageContent, downloadRichMenuImage, catch, then_, axios_get,
    request, res_data_buffer. cbn. rewrite Hbuffer.
  split; [reflexivity|].
  unfold nullOn404, handleError. now rewrite Hresponse.
Qed.

(** [retrieveMessageContent] asks for an [arraybuffer] only when the
    call carries an override: without one it passes no config at all.
    [downloadRichMenuImage] always asks for it. *)
Theorem responseType_of_binary_calls
    (messageId richMenuId : string) (options : CallOptions) (st : State) :
  (∃ req, (retrieveMessageContent messageId options st).2 = after st req
          ∧ req_responseType req
            = match accessToken options with
              | Some _ => Some "arraybuffer"
              | None => None
              end)
  ∧ (∃ req, (downloadRichMenuImage richMenuId options st).2 = after st req
            ∧ req_responseType req = Some "arraybuffer").
Proof.
  split.
  - unfold retrieveMessageContent, axios_get. rewrite then_run, request_run.
    eexists. split; [reflexivity|].
    destruct (accessToken options); reflexivity.
  - unfold downloadRichMenuImage, axios_get. rewrite catch_run, then_run, request_run.
    eexists. split; reflexivity.
Qed.

(** ** Building the instance *)

(** A config without origin, or with the empty string as origin, and
    without observer builds the instance that the token and the secret
    alone build; the second argument is not looked at when the first is
    a config.  [connect] is the constructor. *)
Theorem constructor_forms_agree
    (token secret : string) (origin : option string) (other : option string) :
  origin = None ∨ origin = Some EmptyString →
  let config := {| config_accessToken := token;
                   config_channelSecret := secret;
                   config_origin := origin;
                   config_onRequest := None |} in
  constructor (inr config) other = constructor (inl token) (Some secret)
  ∧ connect (inr config) other = constructor (inl token) (Some secret)
  ∧ baseURL (get_axios (constructor (inr config) other)) = "https://api.line.me/"
  ∧ get_accessToken (constructor (inr config) other) = token.
Proof.
  intros [-> | ->]; repeat split.
Qed.

(** ** Pages as they come *)

Section RawPages.

Variable url : Value → string.
Variable config : option AxiosRequestConfig.

(** The rounds of the loop for pages whose [memberIds] may be anything:
    each is added with [concat]. *)
Lemma loop_raw_pages (responses : list AxiosResponse) (pages : list (Value * Value)) :
  Forall2 destructures_to responses pages →
  Forall (λ page, truthy page.2 = true) pages →
  ∀ (fuel : nat) (all : list Value) (token : Value) (st : State)
    (coming : list Settled),
    network st = map Fulfilled responses ++ coming →
    getAllMemberIds_loop (length responses + fuel) (fetchPage url config) all token st
    = getAllMemberIds_loop fuel (fetchPage url config)
        (fold_left array_concat (map fst pages) all) (raw_next_cursor token pages)
        {| this := this st;
           network := coming;
           sent := sent st ++ map (pageRequest (this st) url config)
                     (raw_cursors token pages) |}.
Proof.
  induction 1 as [|res [memberIds next] responses pages Hpage _ IH];
    intros Htruthy fuel all token st coming Hnetwork.
  - cbn in *. rewrite !app_nil_r. destruct st; cbn in *; now subst.
  - apply Forall_cons in Htruthy as [Hnext Htruthy]. cbn in Hnext.
    cbn [length Nat.add getAllMemberIds_loop].
    rewrite fetchPage_run. unfold answer. rewrite Hnetwork. cbn [map app settle].
    unfold destructures_to in Hpage. rewrite Hpage, Hnext.
    rewrite (IH Htruthy fuel _ _ _ coming) by (cbn; now rewrite Hnetwork).
    cbn [after this sent map fold_left raw_cursors raw_next_cursor fst snd].
    unfold pageRequest at 3. now rewrite <- !app_assoc.
Qed.

Lemma getAllMemberIds_raw_pages (st : State) (responses : list AxiosResponse)
    (pages : list (Value * Value)) (final : AxiosResponse)
    (finalPage : Value * Value) (rest : list Settled) :
  Forall2 destructures_to responses pages →
  Forall (λ page, truthy page.2 = true) pages →
  destructures_to final finalPage →
  truthy finalPage.2 = false →
  network st = map Fulfilled responses ++ Fulfilled final :: rest →
  (getAllMemberIds (fetchPage url config) st).1
  = Return (fold_left array_concat (map fst (pages ++ [finalPage])) []).
Proof.
  intros Hpages Htruthy Hfinal Hfalsy Hnetwork.
  unfold getAllMemberIds. rewrite Hnetwork, network_length.
  rewrite (loop_raw_pages _ _ Hpages Htruthy _ _ _ _ _ Hnetwork).
  cbn [getAllMemberIds_loop]. rewrite fetchPage_run.
  unfold answer. cbn [network settle].
  unfold destructures_to in Hfinal. rewrite Hfinal.
  destruct finalPage as [memberIds next]. cbn [fst snd] in Hfalsy |- *.
  rewrite Hfalsy, map_app, fold_left_app. reflexivity.
Qed.

(** A response whose body is [null] where a page is expected: the
    destructuring throws, and that [TypeError] is what the loop ends
    with. *)
Lemma getAllMemberIds_null_page (st : State) (responses : list AxiosResponse)
    (pages : list (Value * Value)) (final : AxiosResponse) (rest : list Settled) :
  Forall2 destructures_to responses pages →
  Forall (λ page, truthy page.2 = true) pages →
  res_data final = JsonData VNull →
  network st = map Fulfilled responses ++ Fulfilled final :: rest →
  (getAllMemberIds (fetchPage url config) st).1
  = Throw (TypeError (cannotRead "memberIds" VNull)).
Proof.
  intros Hpages Htruthy Hnull Hnetwork.
  unfold getAllMemberIds. rewrite Hnetwork, network_length.
  rewrite (loop_raw_pages _ _ Hpages Htruthy _ _ _ _ _ Hnetwork).
  cbn [getAllMemberIds_loop]. rewrite fetchPage_run.
  unfold answer. cbn [network settle]. now rewrite Hnull.
Qed.

Lemma getAllMemberIds_returned (st st' : State) (ids : list Value) :
  getAllMemberIds (fetchPage url config) st = (Return ids, st') →
  ∃ responses, network st = map Fulfilled responses ++ network st'.
Proof.
  unfold getAllMemberIds.
  destruct (getAllMemberIds_loop _ _ _ _ _) as [[result st'']|] eqn:Hloop;
    [|discriminate].
  intros [= -> ->]. eapply loop_returns_after_responses. exact Hloop.
Qed.

End RawPages.

(** The pages are not checked: [memberIds] is added with [concat], which
    spreads an array and appends anything else, [undefined] for a page
    without [memberIds] included, as one element. *)
Theorem accumulation_concats_whatever_memberIds_is
    (id : string) (options : CallOptions) (st : State)
    (responses : list AxiosResponse) (pages : list (Value * Value))
    (final : AxiosResponse) (finalPage : Value * Value) (rest : list Settled) :
  Forall2 destructures_to responses pages →
  Forall (λ page, truthy page.2 = true) pages →
  destructures_to final finalPage →
  truthy finalPage.2 = false →
  network st = map Fulfilled responses ++ Fulfilled final :: rest →
  (getAllGroupMemberIds id options st).1
  = Return (fold_left array_concat (map fst (pages ++ [finalPage])) [])
  ∧ (getAllRoomMemberIds id options st).1
    = Return (fold_left array_concat (map fst (pages ++ [finalPage])) []).
Proof.
  intros Hpages Htruthy Hfinal Hfalsy Hnetwork.
  unfold getAllGroupMemberIds, getAllRoomMemberIds.
  rewrite getGroupMemberIds_fetchPage, getRoomMemberIds_fetchPage.
  split; now apply getAllMemberIds_raw_pages with (responses := responses) (final := final) (rest := rest).
Qed.

(** A [null] body among the pages ends the accumulation with the
    [TypeError] of the destructuring, not with an error of
    [handleError], and without the ids gathered so far. *)
Theorem accumulation_throws_on_null_page
    (id : string) (options : CallOptions) (st : State)
    (responses : list AxiosResponse) (pages : list (Value * Value))
    (final : AxiosResponse) (rest : list Settled) :
  Forall2 destructures_to responses pages →
  Forall (λ page, truthy page.2 = true) pages →
  res_data final = JsonData VNull →
  network st = map Fulfilled responses ++ Fulfilled final :: rest →
  (getAllGroupMemberIds id options st).1
  = Throw (TypeError (cannotRead "memberIds" VNull))
  ∧ (getAllRoomMemberIds id options st).1
    = Throw (TypeError (cannotRead "memberIds" VNull)).
Proof.
  intros Hpages Htruthy Hnull Hnetwork.
  unfold getAllGroupMemberIds, getAllRoomMemberIds.
  rewrite getGroupMemberIds_fetchPage, getRoomMemberIds_fetchPage.
  split; now apply getAllMemberIds_null_page with (responses := responses) (pages := pages) (final := final) (rest := rest).
Qed.

(** Whatever the network answers and whatever the pages look like, an
    accumulation that returns ids took only responses from the network:
    had one of its requests failed, it would not have returned. *)
Theorem accumulation_returns_only_after_responses
    (id : string) (options : CallOptions) (st st' : State) (ids : list Value) :
  getAllGroupMemberIds id options st = (Return ids, st')
  ∨ getAllRoomMemberIds id options st = (Return ids, st') →
  ∃ responses, network st = map Fulfilled responses ++ network st'.
Proof.
  unfold getAllGroupMemberIds, getAllRoomMemberIds.
  rewrite getGroupMemberIds_fetchPage, getRoomMemberIds_fetchPage.
  intros [Hrun | Hrun]; eapply getAllMemberIds_returned; exact Hrun.
Qed.

(** ** The adapters *)

(** What an adapter comes to: [_send] in the mode of its name, at the
    one message of its kind, with the options as the endpoints read
    them. *)
Lemma send_message_is_send (mode : Mode) (target : Value) (message : MessageKind) :
  send_message mode target message
  = match mode with
    | ToReply => reply
    | ToPush => push
    | ToMulticast => multicast
    end target [message_of message] {| accessToken := override_of message |}.
Proof.
  destruct mode, message as
      [text [o|] | image [o|] | video [o|] | audio [o|] | location [o|]
      | sticker [o|] | altText imagemap [o|] | altText flex [o|]
      | altText template [o|] | altText buttonTemplate [o|]
      | altText buttonTemplate [o|] | altText confirmTemplate [o|]
      | altText columns [[ratio size o]|] | altText columns [o|]];
    reflexivity.
Qed.

(** Every adapter, [replyText] to [multicastImageCarouselTemplate],
    issues exactly one request: a POST to the path of the mode in its
    name, whose body holds the target and a list of one message, the
    one the builder of its kind makes of the arguments. *)
Theorem adapters_send_one_message
    (mode : Mode) (target : Value) (message : MessageKind) (st : State) :
  issues_one st (send_message mode target message st).2
    "post" (path mode)
    (JsonData (VObj [(target_key mode, target);
                     ("messages", VArr [message_of message])])).
Proof.
  rewrite send_message_is_send.
  destruct mode; apply rawBody_issues_one.
Qed.

(** The access token among the options of an adapter is the credential
    of its request, the empty string included; without one, or without
    options, the request carries the token of the instance. *)
Theorem adapters_carry_the_override
    (mode : Mode) (target : Value) (message : MessageKind) (client : LineClient) :
  credentials_installed client →
  sends_only client
    (λ req, authorization req
            = Some ("Bearer " +:+ default (_accessToken client) (override_of message)))
    (send_message mode target message).
Proof.
  intros Hinstalled. rewrite send_message_is_send.
  destruct mode; unfold reply, push, multicast, replyRawBody, pushRawBody,
    multicastRawBody, axios_post;
    apply sends_only_then, sends_only_request;
    exact (authorization_config client Hinstalled _ _ _
             {| accessToken := override_of message |}).
Qed.

Lemma pick_agree (keys : list string) (a b : list (string * Value)) :
  agree_on keys a b → pick keys a = pick keys b.
Proof.
  unfold pick, agree_on. intros Hagree. f_equal.
  induction Hagree as [|k keys Hk _ IH]; cbn; [reflexivity|].
  now rewrite Hk, IH.
Qed.

(** Of the object given for an imagemap, a button template or a confirm
    template only the properties the adapter names reach the builder:
    two objects that agree on those are sent alike. *)
Theorem adapters_read_named_properties_only
    (type : string) (target : Value) (altText : string)
    (a b : list (string * Value)) (options : option MessageOptions) :
  (agree_on ["baseUrl"; "baseSize"; "video"; "actions"] a b →
   _sendImagemap type target altText a options
   = _sendImagemap type target altText b options)
  ∧ (agree_on ["thumbnailImageUrl"; "imageAspectRatio"; "imageSize";
               "imageBackgroundColor"; "title"; "text"; "defaultAction";
               "actions"] a b →
     _sendButtonTemplate type target altText a options
     = _sendButtonTemplate type target altText b options)
  ∧ (agree_on ["text"; "actions"] a b →
     _sendConfirmTemplate type target altText a options
     = _sendConfirmTemplate type target altText b options).
Proof.
  unfold _sendImagemap, _sendButtonTemplate, _sendConfirmTemplate.
  repeat split; intros Hagree; now rewrite (pick_agree _ _ _ Hagree).
Qed.

End Client.

(** * The statements on concrete input *)

(** Function values are named; the client of the examples is built from
    a token and a secret. *)
Local Abbreviation exampleClient :=
  (constructor string "onRequest" (inl "channel-token") (Some "secret")).

Local Abbreviation exampleState answers :=
  {| this := exampleClient; network := answers; sent := [] |}.

Local Abbreviation ok body :=
  {| res_status := 200; res_data := JsonData body |}.

Local Abbreviation noOptions := {| accessToken := None |}.

(** The failure of the specification's example: a body with one detail. *)
Local Abbreviation badRequest :=
  (RequestError "Request failed with status code 400"
     (Some {| status := 400;
              data := Some {| message := "The request body has 1 error(s)";
                              details := Some [ {| property := "messages[0].type";
                                                   detail_message := "may not be null" |} ] |} |})).

Lemma handleError_formats_details_example :
  err_response badRequest
  = Some {| status := 400;
            data := Some {| message := "The request body has 1 error(s)";
                            details := Some [ {| property := "messages[0].type";
                                                 detail_message := "may not be null" |} ] |} |}
  ∧ [ {| property := "messages[0].type"; detail_message := "may not be null" |} ] ≠ []
  ∧ @handleError unit badRequest
    = Throw (AxiosError
               ("LINE API - The request body has 1 error(s)" +:+ LF
                +:+ "- messages[0].type: may not be null")
               badRequest).
Proof.
  split; [reflexivity|]. split; [discriminate|].
  exact (handleError_formats_details unit badRequest 400 _ _ eq_refl
           ltac:(discriminate)).
Defined.

Local Abbreviation unreachable :=
  (RequestError "getaddrinfo ENOTFOUND api.line.me" None).

Lemma handleError_transport_failure_example :
  (err_response unreachable = None
   ∨ (∃ code, err_response unreachable = Some {| status := code; data := None |}))
  ∧ @handleError unit unreachable
    = Throw (AxiosError "getaddrinfo ENOTFOUND api.line.me" unreachable)
  ∧ (∀ a : unit, @handleError unit unreachable ≠ Return a)
  ∧ @handleError unit unreachable ≠ Pending.
Proof.
  split; [left; reflexivity|].
  exact (handleError_transport_failure unit unreachable (or_introl eq_refl)).
Defined.

(** A mistyped mode is a reply. *)
Lemma _send_falls_through_to_reply_example :
  "replay" ≠ "push" ∧ "replay" ≠ "multicast"
  ∧ _send string "replay" (VStr "token-1") [VStr "hello"] noOptions
    = reply string (VStr "token-1") [VStr "hello"] noOptions.
Proof.
  split; [discriminate|]. split; [discriminate|].
  exact (proj1 (_send_falls_through_to_reply string "replay" (VStr "token-1")
                  [VStr "hello"] noOptions
                  ltac:(discriminate) ltac:(discriminate))).
Defined.

(** The two pages of the specification. *)
Local Abbreviation page1 :=
  (ok (VObj [("memberIds", VArr [VStr "u1"; VStr "u2"]); ("next", VStr "tok1")])).

Local Abbreviation page2 := (ok (VObj [("memberIds", VArr [VStr "u3"])])).

Lemma getAllMemberIds_accumulates_until_falsy_next_example :
  Forall2 (is_page_with_cursor cannotReadProperty) [page1]
    [([VStr "u1"; VStr "u2"], "tok1")]
  ∧ Forall (λ page : list Value * string, page.2 ≠ EmptyString)
      [([VStr "u1"; VStr "u2"], "tok1")]
  ∧ is_page cannotReadProperty page2 ([VStr "u3"], VUndefined)
  ∧ truthy VUndefined = false
  ∧ getAllGroupMemberIds string cannotReadProperty decimal "G" noOptions
      (exampleState [Fulfilled page1; Fulfilled page2])
    = (Return [VStr "u1"; VStr "u2"; VStr "u3"],
       {| this := exampleClient;
          network := [];
          sent :=
            [ ("onRequest",
               outgoing string exampleClient "get" "/v2/bot/group/G/members/ids"
                 (JsonData VUndefined) None);
              ("onRequest",
               outgoing string exampleClient "get"
                 "/v2/bot/group/G/members/ids?start=tok1"
                 (JsonData VUndefined) None) ] |}).
Proof.
  assert (H1 : Forall2 (is_page_with_cursor cannotReadProperty) [page1]
                 [([VStr "u1"; VStr "u2"], "tok1")])
    by (repeat constructor).
  assert (H2 : Forall (λ page : list Value * string, page.2 ≠ EmptyString)
                 [([VStr "u1"; VStr "u2"], "tok1")])
    by (repeat constructor; discriminate).
  do 2 (split; [assumption|]). do 2 (split; [reflexivity|]).
  exact (proj1 (getAllMemberIds_accumulates_until_falsy_next string
                  cannotReadProperty decimal "G"
                  noOptions (exampleState [Fulfilled page1; Fulfilled page2])
                  [page1] _ page2 [VStr "u3"] VUndefined [] H1 H2
                  eq_refl eq_refl eq_refl)).
Defined.

(** Where the code departs from C3 as the specification words it: a
    first page whose [next] is the empty string is neither without
    [next] nor has it undefined, yet the accumulation stops there.  One
    request is made, the second page is never asked for and its id is
    not in the result, where the wording has two requests and
    [u1, u2, u3]. *)
Local Abbreviation pageWithEmptyNext :=
  (ok (VObj [("memberIds", VArr [VStr "u1"; VStr "u2"]); ("next", VStr EmptyString)])).

Lemma getAllMemberIds_stops_at_empty_next :
  is_page cannotReadProperty pageWithEmptyNext
    ([VStr "u1"; VStr "u2"], VStr EmptyString)
  ∧ VStr EmptyString ≠ VUndefined
  ∧ getAllGroupMemberIds string cannotReadProperty decimal "G" noOptions
      (exampleState [Fulfilled pageWithEmptyNext; Fulfilled page2])
    = (Return [VStr "u1"; VStr "u2"],
       {| this := exampleClient;
          network := [Fulfilled page2];
          sent :=
            [ ("onRequest",
               outgoing string exampleClient "get" "/v2/bot/group/G/members/ids"
                 (JsonData VUndefined) None) ] |})
  ∧ (getAllGroupMemberIds string cannotReadProperty decimal "G" noOptions
       (exampleState [Fulfilled pageWithEmptyNext; Fulfilled page2])).1
    ≠ Return [VStr "u1"; VStr "u2"; VStr "u3"]
  ∧ (getAllRoomMemberIds string cannotReadProperty decimal "R" noOptions
       (exampleState [Fulfilled pageWithEmptyNext; Fulfilled page2])).1
    = Return [VStr "u1"; VStr "u2"].
Proof.
  split; [reflexivity|]. split; [discriminate|]. split; [reflexivity|].
  split; [discriminate|reflexivity].
Qed.

(** The second fetch fails: nothing is returned, the ids of the first
    page included. *)
Local Abbreviation overloaded :=
  (Some {| status := 500;
           data := Some {| message := "Internal error"; details := None |} |}).

Lemma getAllMemberIds_aborts_on_failure_example :
  Forall2 (is_page cannotReadProperty) [page1] [([VStr "u1"; VStr "u2"], VStr "tok1")]
  ∧ Forall (λ page : list Value * Value, truthy page.2 = true)
      [([VStr "u1"; VStr "u2"], VStr "tok1")]
  ∧ (getAllGroupMemberIds string cannotReadProperty decimal "G" noOptions
       (exampleState
          [Fulfilled page1; Rejected "Request failed with status code 500" overloaded])).1
    = Throw (AxiosError "LINE API - Internal error"
               (RequestError "Request failed with status code 500" overloaded)).
Proof.
  assert (H1 : Forall2 (is_page cannotReadProperty) [page1]
                 [([VStr "u1"; VStr "u2"], VStr "tok1")])
    by (repeat constructor).
  assert (H2 : Forall (λ page : list Value * Value, truthy page.2 = true)
                 [([VStr "u1"; VStr "u2"], VStr "tok1")])
    by (repeat constructor).
  repeat (split; [assumption|]).
  exact (proj1 (proj1 (getAllMemberIds_aborts_on_failure string cannotReadProperty decimal
                         "G" noOptions
                         (exampleState
                            [Fulfilled page1;
                             Rejected "Request failed with status code 500" overloaded])
                         [page1] _ "Request failed with status code 500" overloaded []
                         H1 H2 eq_refl))).
Defined.

(** A missing profile is [null]; a missing group is an error. *)
Local Abbreviation notFound :=
  (Some {| status := 404; data := Some {| message := "Not found"; details := None |} |}).

Lemma not_found_null_exactly_for_lookups_example :
  network string
    (exampleState [Rejected "Request failed with status code 404" notFound])
  = [Rejected "Request failed with status code 404" notFound]
  ∧ preflight sniff (GetUserProfile "U1") = true
  ∧ preflight sniff (GetGroupMemberIds "G" VUndefined) = true
  ∧ (perform string sniff bytesOnly cannotReadProperty decimal (GetUserProfile "U1") noOptions
       (exampleState [Rejected "Request failed with status code 404" notFound])).1
    = Return (JsonData VNull)
  ∧ (perform string sniff bytesOnly cannotReadProperty decimal
       (GetGroupMemberIds "G" VUndefined) noOptions
       (exampleState [Rejected "Request failed with status code 404" notFound])).1
    = Throw (AxiosError "LINE API - Not found"
               (RequestError "Request failed with status code 404" notFound)).
Proof.
  do 3 (split; [reflexivity|]).
  split.
  - exact (proj1 (not_found_null_exactly_for_lookups string sniff bytesOnly
                    cannotReadProperty decimal (GetUserProfile "U1") noOptions
                    (exampleState [Rejected "Request failed with status code 404" notFound])
                    _ _ [] eq_refl eq_refl)).
  - exact (proj1 (not_found_null_exactly_for_lookups string sniff bytesOnly
                    cannotReadProperty decimal (GetGroupMemberIds "G" VUndefined) noOptions
                    (exampleState [Rejected "Request failed with status code 404" notFound])
                    _ _ [] eq_refl eq_refl)).
Defined.

(** A GIF is refused before anything is sent; a PNG goes out as
    [image/png]. *)
Local Abbreviation gif :=
  ([Byte.x47; Byte.x49; Byte.x46; Byte.x38; Byte.x39; Byte.x61] : Buffer).

Local Abbreviation png :=
  ([Byte.x89; Byte.x50; Byte.x4e; Byte.x47; Byte.x0d; Byte.x0a; Byte.x1a; Byte.x0a]
   : Buffer).

Lemma uploadRichMenuImage_preflight_example :
  (sniff gif = None
   ∨ ∃ t, sniff gif = Some t ∧ mime t ≠ "image/jpeg" ∧ mime t ≠ "image/png")
  ∧ uploadRichMenuImage string sniff "richmenu-1" gif noOptions (exampleState [])
    = (Throw (InvariantViolation "Image must be `image/jpeg` or `image/png`"),
       exampleState [])
  ∧ sniff png = Some {| ext := "png"; mime := "image/png" |}
  ∧ ∃ req,
      (uploadRichMenuImage string sniff "richmenu-1" png noOptions (exampleState [])).2
      = after string (exampleState []) req
      ∧ req_method req = "post"
      ∧ req_url req = "/v2/bot/richmenu/richmenu-1/content"
      ∧ req_body req = BinaryData png
      ∧ req_headers req !! "Content-Type" = Some "image/png".
Proof.
  assert (Hgif : sniff gif = None
                 ∨ ∃ t, sniff gif = Some t ∧ mime t ≠ "image/jpeg" ∧ mime t ≠ "image/png").
  { right. eexists. split; [reflexivity|]. split; discriminate. }
  split; [exact Hgif|]. split.
  - exact (proj1 (uploadRichMenuImage_preflight string sniff "richmenu-1" gif
                    noOptions (exampleState [])) Hgif).
  - split; [reflexivity|].
    exact (proj2 (uploadRichMenuImage_preflight string sniff "richmenu-1" png
                    noOptions (exampleState []))
             _ eq_refl (or_intror eq_refl)).
Defined.

(** The empty override on the two image calls: the request carries the
    token of the instance, not the empty one. *)
Lemma empty_override_dropped_by_rich_menu_image_calls_example :
  credentials_installed string exampleClient
  ∧ sniff png = Some {| ext := "png"; mime := "image/png" |}
  ∧ (∃ req,
       (uploadRichMenuImage string sniff "richmenu-1" png
          {| accessToken := Some EmptyString |} (exampleState [])).2
       = after string (exampleState []) req
       ∧ authorization req = Some "Bearer channel-token")
  ∧ (∃ req,
       (downloadRichMenuImage string bytesOnly "richmenu-1"
          {| accessToken := Some EmptyString |} (exampleState [])).2
       = after string (exampleState []) req
       ∧ authorization req = Some "Bearer channel-token").
Proof.
  split; [reflexivity|]. split; [reflexivity|].
  exact (empty_override_dropped_by_rich_menu_image_calls string sniff bytesOnly
           "richmenu-1" png _ (exampleState []) eq_refl eq_refl
           (or_intror eq_refl)).
Defined.

(** ** The further properties on concrete input *)

Local Abbreviation emptyOverride := {| accessToken := Some EmptyString |}.

(** An empty override on a push is sent as it is. *)
Lemma override_reaches_every_request_example :
  credentials_installed string exampleClient
  ∧ (spreads (Push (VStr "U1") [VStr "hello"]) = true →
     accessToken emptyOverride ≠ Some EmptyString)
  ∧ sends_only string exampleClient
      (λ req, authorization req = Some "Bearer ")
      (perform string sniff bytesOnly cannotReadProperty decimal
         (Push (VStr "U1") [VStr "hello"]) emptyOverride).
Proof.
  split; [reflexivity|]. split; [discriminate|].
  exact (override_reaches_every_request string sniff bytesOnly cannotReadProperty decimal
           (Push (VStr "U1") [VStr "hello"]) emptyOverride exampleClient
           eq_refl ltac:(discriminate)).
Defined.

(** A refused reply is not tried again. *)
Lemma one_request_per_call_example :
  accumulates (Reply (VStr "token-1") [VStr "hello"]) = false
  ∧ ∃ req,
      (perform string sniff bytesOnly cannotReadProperty decimal
         (Reply (VStr "token-1") [VStr "hello"]) noOptions
         (exampleState [Rejected "Request failed with status code 500" overloaded;
                        Fulfilled (ok VNull)])).2
      = after string
          (exampleState [Rejected "Request failed with status code 500" overloaded;
                         Fulfilled (ok VNull)])
          req.
Proof.
  split; [reflexivity|].
  exact (one_request_per_call string sniff bytesOnly cannotReadProperty decimal
           (Reply (VStr "token-1") [VStr "hello"]) noOptions
           (exampleState [Rejected "Request failed with status code 500" overloaded;
                          Fulfilled (ok VNull)])
           eq_refl).
Defined.

(** A rich menu that cannot be read for another reason than its absence
    is an error. *)
Lemma failure_is_raised_unless_softened_404_example :
  network string
    (exampleState [Rejected "Request failed with status code 500" overloaded])
  = [Rejected "Request failed with status code 500" overloaded]
  ∧ preflight sniff (GetRichMenu "richmenu-1") = true
  ∧ (∀ userId, GetRichMenu "richmenu-1" ≠ GetUserProfile userId)
  ∧ (perform string sniff bytesOnly cannotReadProperty decimal (GetRichMenu "richmenu-1")
       noOptions
       (exampleState [Rejected "Request failed with status code 500" overloaded])).1
    = Throw (AxiosError "LINE API - Internal error"
               (RequestError "Request failed with status code 500" overloaded)).
Proof.
  do 2 (split; [reflexivity|]). split; [discriminate|].
  exact (failure_is_raised_unless_softened_404 string sniff bytesOnly
           cannotReadProperty decimal (GetRichMenu "richmenu-1") noOptions
           (exampleState [Rejected "Request failed with status code 500" overloaded])
           _ _ [] eq_refl eq_refl ltac:(discriminate)).
Defined.

Lemma getUserProfile_wraps_twice_example :
  network string
    (exampleState [Rejected "Request failed with status code 500" overloaded])
  = [Rejected "Request failed with status code 500" overloaded]
  ∧ is404 overloaded = false
  ∧ ∃ text,
      @handleError Payload (RequestError "Request failed with status code 500" overloaded)
      = Throw (AxiosError text
                 (RequestError "Request failed with status code 500" overloaded))
      ∧ (getUserProfile string "U1" noOptions
           (exampleState [Rejected "Request failed with status code 500" overloaded])).1
        = Throw (AxiosError text
                   (AxiosError text
                      (RequestError "Request failed with status code 500" overloaded))).
Proof.
  do 2 (split; [reflexivity|]).
  exact (getUserProfile_wraps_twice string "U1" noOptions
           (exampleState [Rejected "Request failed with status code 500" overloaded])
           _ _ [] eq_refl eq_refl).
Defined.

Lemma handleError_without_details_example :
  err_response (RequestError "Request failed with status code 500" overloaded)
  = Some {| status := 500;
            data := Some {| message := "Internal error"; details := None |} |}
  ∧ ((None : option (list Detail)) = None ∨ (None : option (list Detail)) = Some [])
  ∧ @handleError unit (RequestError "Request failed with status code 500" overloaded)
    = Throw (AxiosError "LINE API - Internal error"
               (RequestError "Request failed with status code 500" overloaded)).
Proof.
  split; [reflexivity|]. split; [left; reflexivity|].
  exact (handleError_without_details unit
           (RequestError "Request failed with status code 500" overloaded)
           500 "Internal error" None eq_refl (or_introl eq_refl)).
Defined.

(** The body of the response to a push comes back as it is. *)
Lemma response_data_is_passed_on_example :
  network string (exampleState [Fulfilled (ok (VObj []))]) = [Fulfilled (ok (VObj []))]
  ∧ preflight sniff (Push (VStr "U1") [VStr "hello"]) = true
  ∧ passes_data_on (Push (VStr "U1") [VStr "hello"]) = true
  ∧ (perform string sniff bytesOnly cannotReadProperty decimal
       (Push (VStr "U1") [VStr "hello"]) noOptions
       (exampleState [Fulfilled (ok (VObj []))])).1
    = Return (JsonData (VObj [])).
Proof.
  do 3 (split; [reflexivity|]).
  exact (response_data_is_passed_on string sniff bytesOnly cannotReadProperty decimal
           (Push (VStr "U1") [VStr "hello"]) noOptions
           (exampleState [Fulfilled (ok (VObj []))]) _ [] eq_refl eq_refl eq_refl).
Defined.

(** A body without [richmenus] gives [undefined]. *)
Lemma list_calls_read_one_property_example :
  network string (exampleState [Fulfilled (ok (VObj []))]) = [Fulfilled (ok (VObj []))]
  ∧ (getRichMenuList string cannotReadProperty noOptions
       (exampleState [Fulfilled (ok (VObj []))])).1
    = Return (JsonData VUndefined)
  ∧ (getLiffAppList string cannotReadProperty noOptions
       (exampleState [Fulfilled (ok (VObj []))])).1
    = Return (JsonData VUndefined).
Proof.
  split; [reflexivity|].
  exact (proj1 (list_calls_read_one_property string cannotReadProperty noOptions
                  (exampleState [Fulfilled (ok (VObj []))]) _ [] eq_refl)
           [] eq_refl).
Defined.

(** A JSON body where bytes were expected. *)
Lemma Buffer_from_failure_example :
  network string (exampleState [Fulfilled (ok (VStr "not bytes"))])
  = [Fulfilled (ok (VStr "not bytes"))]
  ∧ bytesOnly (JsonData (VStr "not bytes"))
    = inl (TypeError "The first argument must be a Buffer")
  ∧ err_response (TypeError "The first argument must be a Buffer") = None
  ∧ (retrieveMessageContent string bytesOnly "message-1" noOptions
       (exampleState [Fulfilled (ok (VStr "not bytes"))])).1
    = Throw (TypeError "The first argument must be a Buffer")
  ∧ (downloadRichMenuImage string bytesOnly "richmenu-1" noOptions
       (exampleState [Fulfilled (ok (VStr "not bytes"))])).1
    = Throw (AxiosError "The first argument must be a Buffer"
               (TypeError "The first argument must be a Buffer")).
Proof.
  do 3 (split; [reflexivity|]).
  exact (Buffer_from_failure string bytesOnly "message-1" "richmenu-1" noOptions
           (exampleState [Fulfilled (ok (VStr "not bytes"))]) _ [] _
           eq_refl eq_refl eq_refl).
Defined.

Lemma constructor_forms_agree_example :
  (Some EmptyString = None ∨ Some EmptyString = Some EmptyString)
  ∧ constructor string "onRequest"
      (inr {| config_accessToken := "channel-token";
              config_channelSecret := "secret";
              config_origin := Some EmptyString;
              config_onRequest := None |})
      None
    = exampleClient.
Proof.
  split; [right; reflexivity|].
  exact (proj1 (constructor_forms_agree string "onRequest" "channel-token" "secret"
                  (Some EmptyString) None (or_intror eq_refl))).
Defined.

(** A page without [memberIds] between two pages that have them. *)
Local Abbreviation pageWithoutIds := (ok (VObj [("next", VStr "tok2")])).

Lemma accumulation_concats_whatever_memberIds_is_example :
  Forall2 (destructures_to cannotReadProperty) [page1; pageWithoutIds]
    [(VArr [VStr "u1"; VStr "u2"], VStr "tok1"); (VUndefined, VStr "tok2")]
  ∧ Forall (λ page : Value * Value, truthy page.2 = true)
      [(VArr [VStr "u1"; VStr "u2"], VStr "tok1"); (VUndefined, VStr "tok2")]
  ∧ destructures_to cannotReadProperty page2 (VArr [VStr "u3"], VUndefined)
  ∧ truthy VUndefined = false
  ∧ (getAllGroupMemberIds string cannotReadProperty decimal "G" noOptions
       (exampleState [Fulfilled page1; Fulfilled pageWithoutIds; Fulfilled page2])).1
    = Return [VStr "u1"; VStr "u2"; VUndefined; VStr "u3"].
Proof.
  assert (H1 : Forall2 (destructures_to cannotReadProperty) [page1; pageWithoutIds]
                 [(VArr [VStr "u1"; VStr "u2"], VStr "tok1"); (VUndefined, VStr "tok2")])
    by (repeat constructor).
  assert (H2 : Forall (λ page : Value * Value, truthy page.2 = true)
                 [(VArr [VStr "u1"; VStr "u2"], VStr "tok1"); (VUndefined, VStr "tok2")])
    by (repeat constructor).
  do 2 (split; [assumption|]). do 2 (split; [reflexivity|]).
  exact (proj1 (accumulation_concats_whatever_memberIds_is string cannotReadProperty decimal
                  "G" noOptions
                  (exampleState
                     [Fulfilled page1; Fulfilled pageWithoutIds; Fulfilled page2])
                  [page1; pageWithoutIds] _ page2 (VArr [VStr "u3"], VUndefined) []
                  H1 H2 eq_refl eq_refl eq_refl)).
Defined.

Lemma accumulation_throws_on_null_page_example :
  Forall2 (destructures_to cannotReadProperty) [page1]
    [(VArr [VStr "u1"; VStr "u2"], VStr "tok1")]
  ∧ Forall (λ page : Value * Value, truthy page.2 = true)
      [(VArr [VStr "u1"; VStr "u2"], VStr "tok1")]
  ∧ res_data (ok VNull) = JsonData VNull
  ∧ (getAllGroupMemberIds string cannotReadProperty decimal "G" noOptions
       (exampleState [Fulfilled page1; Fulfilled (ok VNull)])).1
    = Throw (TypeError "Cannot read property 'memberIds' of null").
Proof.
  assert (H1 : Forall2 (destructures_to cannotReadProperty) [page1]
                 [(VArr [VStr "u1"; VStr "u2"], VStr "tok1")])
    by (repeat constructor).
  assert (H2 : Forall (λ page : Value * Value, truthy page.2 = true)
                 [(VArr [VStr "u1"; VStr "u2"], VStr "tok1")])
    by (repeat constructor).
  do 2 (split; [assumption|]). split; [reflexivity|].
  exact (proj1 (accumulation_throws_on_null_page string cannotReadProperty decimal
                  "G" noOptions
                  (exampleState [Fulfilled page1; Fulfilled (ok VNull)])
                  [page1] _ (ok VNull) [] H1 H2 eq_refl eq_refl)).
Defined.

(** The two pages of the specification were both responses. *)
Lemma accumulation_returns_only_after_responses_example :
  (getAllGroupMemberIds string cannotReadProperty decimal "G" noOptions
     (exampleState [Fulfilled page1; Fulfilled page2])
   = (Return [VStr "u1"; VStr "u2"; VStr "u3"],
      (getAllGroupMemberIds string cannotReadProperty decimal "G" noOptions
         (exampleState [Fulfilled page1; Fulfilled page2])).2)
   ∨ getAllRoomMemberIds string cannotReadProperty decimal "G" noOptions
       (exampleState [Fulfilled page1; Fulfilled page2])
     = (Return [VStr "u1"; VStr "u2"; VStr "u3"],
        (getAllGroupMemberIds string cannotReadProperty decimal "G" noOptions
           (exampleState [Fulfilled page1; Fulfilled page2])).2))
  ∧ ∃ responses,
      [Fulfilled page1; Fulfilled page2]
      = map Fulfilled responses
        ++ network string
             (getAllGroupMemberIds string cannotReadProperty decimal "G" noOptions
                (exampleState [Fulfilled page1; Fulfilled page2])).2.
Proof.
  split; [left; reflexivity|].
  exact (accumulation_returns_only_after_responses string cannotReadProperty decimal
           "G" noOptions (exampleState [Fulfilled page1; Fulfilled page2]) _
           [VStr "u1"; VStr "u2"; VStr "u3"] (or_introl eq_refl)).
Defined.

(** A text pushed with an override. *)
Local Abbreviation withToken token :=
  (Some {| options_accessToken := Some token; options_rest := [] |}).

Lemma adapters_carry_the_override_example :
  credentials_installed string exampleClient
  ∧ sends_only string exampleClient
      (λ req, authorization req = Some "Bearer other-token")
      (pushText string exampleLine (VStr "U1") "hello" (withToken "other-token")).
Proof.
  split; [reflexivity|].
  exact (adapters_carry_the_override string exampleLine ToPush (VStr "U1")
           (TextMessage "hello" (withToken "other-token")) exampleClient eq_refl).
Defined.

(** A property the imagemap adapter does not name makes no difference. *)
Lemma adapters_read_named_properties_only_example :
  agree_on ["baseUrl"; "baseSize"; "video"; "actions"]
    [("baseUrl", VStr "https://example.com/map"); ("colour", VStr "red")]
    [("baseUrl", VStr "https://example.com/map")]
  ∧ _sendImagemap string exampleLine "push" (VStr "U1") "a map"
      [("baseUrl", VStr "https://example.com/map"); ("colour", VStr "red")] None
    = _sendImagemap string exampleLine "push" (VStr "U1") "a map"
        [("baseUrl", VStr "https://example.com/map")] None.
Proof.
  assert (H : agree_on ["baseUrl"; "baseSize"; "video"; "actions"]
                [("baseUrl", VStr "https://example.com/map"); ("colour", VStr "red")]
                [("baseUrl", VStr "https://example.com/map")])
    by (repeat constructor).
  split; [exact H|].
  exact (proj1 (adapters_read_named_properties_only string exampleLine "push"
                  (VStr "U1") "a map" _ _ None) H).
Defined.
